(** * fp_extractor: fields and classes of floating-point encodings

    A shallow embedding of [fp_extractor.py]: the format table [FP_CONFIG],
    the string helpers, the extractors [hex_extractor] and [bin_extractor],
    the class [FPExtractor] with its classifier [get_fp_expression], and the
    part of [GUI.update_bits] that prepares the text of an entry and calls
    the extractor.

    Python values are modelled as follows.
    - [int] is [Z].
    - [str] is [list ascii]; a character is a code point below 256.
    - a raised exception is the left injection of a sum, carrying the
      exception class and its message.
    - the attributes of an [FPExtractor] object that the methods assign are
      threaded through a state-and-exception monad. *)

From Stdlib Require Import ZArith List Ascii String Bool Lia DecimalString.
Import ListNotations.

Open Scope Z_scope.

(** ** Python strings *)

Definition str := list ascii.

(** A literal of the source. *)
Definition lit (s : string) : str := list_ascii_of_string s.

Definition len (s : str) : Z := Z.of_nat (List.length s).

Definition ascii_in (c : ascii) (s : str) : bool :=
  existsb (Ascii.eqb c) s.

(** [a == b] *)
Fixpoint str_eqb (a b : str) : bool :=
  match a, b with
  | [], [] => true
  | x :: a', y :: b' => Ascii.eqb x y && str_eqb a' b'
  | _, _ => false
  end.

(** [c.lower()] on one code point below 256: the letters A-Z and the
    Latin-1 capitals U+00C0..U+00DE (U+00D7, the multiplication sign, is not
    a letter) move up by 32. *)
Definition lower_char (c : ascii) : ascii :=
  let n := N_of_ascii c in
  if ((65 <=? n) && (n <=? 90))%N
     || ((192 <=? n) && (n <=? 222) && negb (n =? 215))%N
  then ascii_of_N (n + 32) else c.

(** [s.lower()] *)
Definition lower (s : str) : str := map lower_char s.

(** [s.startswith(p)] *)
Fixpoint startswith (s p : str) {struct p} : bool :=
  match p, s with
  | [], _ => true
  | _ :: _, [] => false
  | a :: p', b :: s' => Ascii.eqb a b && startswith s' p'
  end.

(** [s[start:]]: a negative start counts from the end, and both ends clip. *)
Definition slice_from (s : str) (start : Z) : str :=
  let n := len s in
  let start' := if start <? 0 then Z.max 0 (start + n) else Z.min start n in
  skipn (Z.to_nat start') s.

(** The bounds of a slice with a negative step, as CPython adjusts them:
    a negative index counts from the end, then it clips to [-1 .. len-1]. *)
Definition adjust_rev (n i : Z) : Z :=
  if i <? 0 then (if i + n <? 0 then -1 else i + n)
  else if n <=? i then n - 1 else i.

(** [s[start:stop:-1]], and [s[start::-1]] when [stop] is [None]: the
    characters at [start], [start-1], ..., [stop+1]. *)
Definition slice_rev (s : str) (start : Z) (stop : option Z) : str :=
  let n := len s in
  let start' := adjust_rev n start in
  let stop' := match stop with Some j => adjust_rev n j | None => -1 end in
  rev (firstn (Z.to_nat (start' - stop')) (skipn (Z.to_nat (stop' + 1)) s)).

(** [s[::-1]] *)
Definition reversed (s : str) : str := rev s.

(** [s.zfill(width)]: zeros are put on the left, after a leading sign.
    (CPython raises [OverflowError] for a width of [2^63] or more and needs
    the memory of the padded string below that; the widths that this
    program passes are those of its formats, 64 at most, and the statements
    on layouts outside the table that depend on it bound the width.) *)
Definition zfill (s : str) (width : Z) : str :=
  if width <=? len s then s
  else
    let pad := repeat "0"%char (Z.to_nat (width - len s)) in
    match s with
    | c :: rest =>
        if Ascii.eqb c "+" || Ascii.eqb c "-" then c :: pad ++ rest
        else pad ++ s
    | [] => pad
    end.

(** [s.replace(c, "")] for a one-character [c]. *)
Definition remove_char (c : ascii) (s : str) : str :=
  filter (fun d => negb (Ascii.eqb d c)) s.

(** [c.isspace()] on a code point below 256. *)
Definition isspace (c : ascii) : bool :=
  let n := N_of_ascii c in
  (((9 <=? n) && (n <=? 13)) || ((28 <=? n) && (n <=? 32))
   || (n =? 133) || (n =? 160))%N.

Fixpoint lstrip (s : str) : str :=
  match s with
  | c :: s' => if isspace c then lstrip s' else s
  | [] => []
  end.

(** [s.strip()] *)
Definition strip (s : str) : str := rev (lstrip (rev (lstrip s))).

(** [str(n)] of an integer, as an f-string field renders it. *)
Definition str_of_int (n : Z) : str :=
  lit (NilZero.string_of_int (Z.to_int n)).

(** ** Exceptions *)

Inductive exn : Type :=
| ValueError (msg : str)
| AssertionError (msg : str)
| IndexError (msg : str)
| TypeError (msg : str).

Definition result (A : Type) : Type := (exn + A)%type.

Definition OK {A : Type} (a : A) : result A := inr a.
Definition Raise {A : Type} (e : exn) : result A := inl e.

Definition rbind {A B : Type} (r : result A) (k : A -> result B) : result B :=
  match r with
  | inl e => inl e
  | inr a => k a
  end.

Notation "x <~ r ;; k" := (rbind r (fun x => k))
  (at level 61, r at next level, right associativity).

Definition py_assert (b : bool) (msg : str) : result unit :=
  if b then OK tt else Raise (AssertionError msg).

(** [s[i]]: a negative index counts from the end. *)
Definition index (s : str) (i : Z) : result str :=
  let n := len s in
  let i' := if i <? 0 then i + n else i in
  if (0 <=? i') && (i' <? n)
  then OK (firstn 1 (skipn (Z.to_nat i') s))
  else Raise (IndexError (lit "string index out of range")).

(** ** Integers and their digits *)

Definition digit_value (c : ascii) : option Z :=
  let n := Z.of_N (N_of_ascii c) in
  if (48 <=? n) && (n <=? 57) then Some (n - 48)
  else if (97 <=? n) && (n <=? 102) then Some (n - 87)
  else if (65 <=? n) && (n <=? 70) then Some (n - 55)
  else None.

Fixpoint digits_value (base : Z) (acc : Z) (s : str) : option Z :=
  match s with
  | [] => Some acc
  | c :: s' =>
      match digit_value c with
      | Some d => if d <? base then digits_value base (base * acc + d) s'
                  else None
      | None => None
      end
  end.

(** [int(s, base)] on the strings this program passes to it: a string of
    digits of the base gives its value, and the empty string raises
    [ValueError].  (Python also accepts blanks around the number, a sign, a
    base prefix and single underscores between digits; every call below is
    made on a string that the digit checks have let through, or that was
    cut out of a binary string, so none of these reach it.) *)
Definition py_int (s : str) (base : Z) : result Z :=
  match s with
  | [] => Raise (ValueError (lit "invalid literal for int() with base "
                              ++ str_of_int base ++ lit ": ''"))
  | _ =>
      match digits_value base 0 s with
      | Some v => OK v
      | None => Raise (ValueError (lit "invalid literal for int() with base "
                                     ++ str_of_int base ++ lit ": '"
                                     ++ s ++ lit "'"))
      end
  end.

Fixpoint pos_bin (p : positive) : str :=
  match p with
  | xH => ["1"%char]
  | xO p' => pos_bin p' ++ ["0"%char]
  | xI p' => pos_bin p' ++ ["1"%char]
  end.

(** [bin(n)] *)
Definition py_bin (n : Z) : str :=
  match n with
  | Z0 => lit "0b0"
  | Zpos p => lit "0b" ++ pos_bin p
  | Zneg p => lit "-0b" ++ pos_bin p
  end.

(** ** The format table *)

Record FPFormat : Type := mkFPFormat {
  width : Z;
  exponent : Z * Z;
  mantissa : Z * Z
}.

Record Fp : Type := mkFp {
  fp_sign : str;
  fp_exponent : str;
  fp_mantissa : str
}.

Definition FP64 : FPFormat := mkFPFormat 64 (62, 52) (51, 0).
Definition FP32 : FPFormat := mkFPFormat 32 (30, 23) (22, 0).
Definition TF32 : FPFormat := mkFPFormat 32 (30, 23) (22, 13).
Definition FP16 : FPFormat := mkFPFormat 16 (14, 10) (9, 0).
Definition BF16 : FPFormat := mkFPFormat 16 (14, 7) (6, 0).
Definition FP8_E4M3 : FPFormat := mkFPFormat 8 (6, 3) (2, 0).
Definition FP8_E5M2 : FPFormat := mkFPFormat 8 (6, 2) (1, 0).

(** The dictionary [FP_CONFIG], in its insertion order. *)
Definition FP_CONFIG : list (str * FPFormat) :=
  [ (lit "FP64", FP64);
    (lit "FP32", FP32);
    (lit "TF32", TF32);
    (lit "FP16", FP16);
    (lit "BF16", BF16);
    (lit "FP8_E4M3", FP8_E4M3);
    (lit "FP8_E5M2", FP8_E5M2) ].

(** ** String checks and conversions *)

Definition hex_str_check (hex_str : str) : bool :=
  forallb (fun c => ascii_in c (lit "0123456789abcdef")) (lower hex_str).

Definition bin_str_check (bin_str : str) : bool :=
  forallb (fun c => ascii_in c (lit "01")) bin_str.

Definition hex_str_to_bin (hex_str : str) (width : Z) : result str :=
  n <~ py_int hex_str 16 ;;
  let bin_str := zfill (slice_from (py_bin n) 2) width in
  let bin_len := len bin_str in
  OK (slice_from bin_str (bin_len - width)).

(** ** Field extraction *)

Definition extract_exponent (bin_str : str) (fp_fmt : FPFormat) : result str :=
  let msb_idx := fst (exponent fp_fmt) in
  let lsb_idx := snd (exponent fp_fmt) - 1 in
  _ <~ py_assert (1 <? snd (exponent fp_fmt)) (lit "Invalid Exponent Index") ;;
  OK (slice_rev bin_str msb_idx (Some lsb_idx)).

Definition extract_mantissa (bin_str : str) (fp_fmt : FPFormat) : result str :=
  let msb_idx := fst (mantissa fp_fmt) in
  if snd (mantissa fp_fmt) =? 0 then
    OK (slice_rev bin_str msb_idx None)
  else
    let lsb_idx := snd (mantissa fp_fmt) - 1 in
    OK (slice_rev bin_str msb_idx (Some lsb_idx)).

Definition extract_sign (bin_str : str) (fp_fmt : FPFormat) : result str :=
  index bin_str (width fp_fmt - 1).

Definition hex_extractor (hex_str : str) (fp_fmt : FPFormat) : result Fp :=
  if negb (hex_str_check hex_str) then
    Raise (ValueError (lit "Invalid Hex Value: [" ++ hex_str ++ lit "]"))
  else
    b <~ hex_str_to_bin hex_str (width fp_fmt) ;;
    let bin_str := reversed b in
    _ <~ py_assert (len bin_str =? width fp_fmt)
                   (lit "Invalid binary string length") ;;
    s <~ extract_sign bin_str fp_fmt ;;
    e <~ extract_exponent bin_str fp_fmt ;;
    m <~ extract_mantissa bin_str fp_fmt ;;
    OK (mkFp s e m).

Definition bin_extractor (bin_str : str) (fp_fmt : FPFormat) : result Fp :=
  if negb (bin_str_check bin_str) then
    Raise (ValueError (lit "Invalid Binary Value: [" ++ bin_str ++ lit "]"))
  else
    let bin_str := zfill bin_str (width fp_fmt) in
    let bin_len := len bin_str in
    let tmp_str := slice_from bin_str (bin_len - width fp_fmt) in
    let fp_str := reversed tmp_str in
    _ <~ py_assert (len fp_str =? width fp_fmt)
                   (lit "Invalid binary string length") ;;
    s <~ extract_sign fp_str fp_fmt ;;
    e <~ extract_exponent fp_str fp_fmt ;;
    m <~ extract_mantissa fp_str fp_fmt ;;
    OK (mkFp s e m).

(** ** The class [FPExtractor] *)

(** The attributes [self.exponent] and [self.mantissa] are the fields
    [exponent_bits] and [mantissa_bits]: the names [exponent] and [mantissa]
    are those of the format. *)
Record FPExtractor : Type := mkFPExtractor {
  fmt_name : str;
  fp_fmt : FPFormat;
  sign : option str;
  exponent_bits : option str;
  mantissa_bits : option str
}.

(** [FPExtractor.__init__]: the three fields start as [None]. *)
Definition FPExtractor_init (name : str) (fmt : FPFormat) : FPExtractor :=
  mkFPExtractor name fmt None None None.

(** A method that may assign attributes and may raise: the object after the
    call is returned in both cases. *)
Definition M (S A : Type) : Type := S -> result A * S.

Definition ret {S A : Type} (a : A) : M S A := fun st => (OK a, st).

Definition bind {S A B : Type} (m : M S A) (k : A -> M S B) : M S B :=
  fun st =>
    match m st with
    | (inl e, st') => (inl e, st')
    | (inr a, st') => k a st'
    end.

Notation "x <- m ;; k" := (bind m (fun x => k))
  (at level 61, m at next level, right associativity).

Definition raise {S A : Type} (e : exn) : M S A := fun st => (Raise e, st).

Definition lift {S A : Type} (r : result A) : M S A := fun st => (r, st).

Definition gets {S A : Type} (f : S -> A) : M S A := fun st => (OK (f st), st).

Definition modify {S : Type} (f : S -> S) : M S unit := fun st => (OK tt, f st).

Definition set_sign (v : str) (st : FPExtractor) : FPExtractor :=
  mkFPExtractor (fmt_name st) (fp_fmt st) (Some v)
                (exponent_bits st) (mantissa_bits st).

Definition set_exponent (v : str) (st : FPExtractor) : FPExtractor :=
  mkFPExtractor (fmt_name st) (fp_fmt st) (sign st)
                (Some v) (mantissa_bits st).

Definition set_mantissa (v : str) (st : FPExtractor) : FPExtractor :=
  mkFPExtractor (fmt_name st) (fp_fmt st) (sign st)
                (exponent_bits st) (Some v).

Definition extract_hex (hex_str : str) : M FPExtractor unit :=
  fmt <- gets fp_fmt ;;
  extract_dict <- lift (hex_extractor hex_str fmt) ;;
  _ <- modify (set_sign (fp_sign extract_dict)) ;;
  _ <- modify (set_exponent (fp_exponent extract_dict)) ;;
  modify (set_mantissa (fp_mantissa extract_dict)).

Definition extract_bin (bin_str : str) : M FPExtractor unit :=
  fmt <- gets fp_fmt ;;
  extract_dict <- lift (bin_extractor bin_str fmt) ;;
  _ <- modify (set_sign (fp_sign extract_dict)) ;;
  _ <- modify (set_exponent (fp_exponent extract_dict)) ;;
  modify (set_mantissa (fp_mantissa extract_dict)).

Definition extract_fp_str (fp_str : str) : M FPExtractor unit :=
  let fp_str := lower fp_str in
  if startswith fp_str (lit "0x") then extract_hex (slice_from fp_str 2)
  else if startswith fp_str (lit "0b") then extract_bin (slice_from fp_str 2)
  else raise (ValueError (lit "Input must start with 0x or 0b: ["
                            ++ fp_str ++ lit "]")).

(** [int(v, 2)] of an attribute: [None] is not a string. *)
Definition int_of_field (v : option str) : result Z :=
  match v with
  | Some s => py_int s 2
  | None =>
      Raise (TypeError (lit "int() can't convert non-string with explicit base"))
  end.

Definition get_exponent_value (self : FPExtractor) : result Z :=
  int_of_field (exponent_bits self).

Definition get_mantissa_value (self : FPExtractor) : result Z :=
  int_of_field (mantissa_bits self).

(** An attribute inside an f-string. *)
Definition fmt_field (v : option str) : str :=
  match v with
  | Some s => s
  | None => lit "None"
  end.

(** [v == "c"] for an attribute [v]. *)
Definition field_is (v : option str) (s : string) : bool :=
  match v with
  | Some t => str_eqb t (lit s)
  | None => false
  end.

Definition is_positive (self : FPExtractor) : bool :=
  field_is (sign self) "0".

Definition get_e4m3_expression (self : FPExtractor)
    (exponent_value mantissa_value : Z) (sign : option str) : str :=
  if (exponent_value =? 8) && (mantissa_value =? 7) then
    lit "NaN"
  else if exponent_value =? -7 then
    if mantissa_value =? 0 then
      if field_is sign "1" then lit "+Zero" else lit "-Zero"
    else
      lit "Subnormal: sign:" ++ fmt_field sign
        ++ lit ", exponent:" ++ str_of_int (exponent_value + 1)
        ++ lit ", mantissa: 0." ++ fmt_field (mantissa_bits self)
  else
    lit "Normal: sign:" ++ fmt_field sign
      ++ lit ", exponent:" ++ str_of_int exponent_value
      ++ lit ", mantissa: 1." ++ fmt_field (mantissa_bits self).

(** [get_fp_expression] reads the object and assigns nothing.  ([2 ** k] is
    an integer for [k >= 0], which holds for every exponent field of one bit
    or more.) *)
Definition get_fp_expression (self : FPExtractor) : result str :=
  let exponent_width :=
    fst (exponent (fp_fmt self)) - snd (exponent (fp_fmt self)) + 1 in
  let exponent_bias := 2 ^ (exponent_width - 1) - 1 in
  exponent_original <~ get_exponent_value self ;;
  let exponent_effective := exponent_original - exponent_bias in
  mantissa_value <~ get_mantissa_value self ;;
  if str_eqb (fmt_name self) (lit "FP8_E4M3") then
    OK (get_e4m3_expression self exponent_effective mantissa_value (sign self))
  else if exponent_effective =? exponent_bias + 1 then
    if mantissa_value =? 0 then
      OK (if is_positive self then lit "+Inf" else lit "-Inf")
    else
      OK (lit "NaN")
  else if exponent_original =? 0 then
    if mantissa_value =? 0 then
      OK (if is_positive self then lit "+Zero" else lit "-Zero")
    else
      OK (lit "Subnormal: sign:" ++ fmt_field (sign self)
            ++ lit ", exponent:" ++ str_of_int (exponent_effective + 1)
            ++ lit ", mantissa: 0." ++ fmt_field (mantissa_bits self))
  else
    OK (lit "Normal: sign:" ++ fmt_field (sign self)
          ++ lit ", exponent:" ++ str_of_int exponent_effective
          ++ lit ", mantissa: 1." ++ fmt_field (mantissa_bits self)).

(** ** The entry handler of the window *)

(** One row of the window: the extractor of a format, the texts of its bit
    labels and the text of its result label. *)
Record Row : Type := mkRow {
  extractor : FPExtractor;
  bit_labels : list str;
  result_label : str
}.

Definition on_extractor {A : Type} (m : M FPExtractor A) : M Row A :=
  fun row =>
    let (r, st) := m (extractor row) in
    (r, mkRow st (bit_labels row) (result_label row)).

Definition set_result_label (text : str) : M Row unit :=
  modify (fun row => mkRow (extractor row) (bit_labels row) text).

(** [try: body except ValueError as e: handler(str(e))] *)
Definition try_except_ValueError {S A : Type}
    (body : M S A) (handler : str -> M S A) : M S A :=
  fun st =>
    match body st with
    | (inl (ValueError msg), st') => handler msg st'
    | other => other
    end.

(** [update_bit_labels]: label [i] shows [bin_str[i]]; the labels before a
    failing index have been changed when the exception leaves the loop. *)
Fixpoint update_bit_labels_from (i : Z) (labels : list str) (bin_str : str)
  : result unit * list str :=
  match labels with
  | [] => (OK tt, [])
  | _ :: rest =>
      match index bin_str i with
      | inl e => (inl e, labels)
      | inr c =>
          let (r, rest') := update_bit_labels_from (i + 1) rest bin_str in
          (r, c :: rest')
      end
  end.

Definition update_bit_labels (bin_str : str) : M Row unit :=
  fun row =>
    let (r, labels) := update_bit_labels_from 0 (bit_labels row) bin_str in
    (r, mkRow (extractor row) labels (result_label row)).

(** [update_bits], with the text of the entry as an argument. *)
Definition update_bits (input_str : str) : M Row unit :=
  let fp_str := lower (remove_char "_" (strip input_str)) in
  if (2 <? len fp_str)
     && (startswith fp_str (lit "0x") || startswith fp_str (lit "0b"))
  then
    result_text <-
      try_except_ValueError
        (_ <- on_extractor (extract_fp_str fp_str) ;;
         w <- gets (fun row => width (fp_fmt (extractor row))) ;;
         bin_str <-
           (if startswith fp_str (lit "0x")
            then lift (hex_str_to_bin (slice_from fp_str 2) w)
            else
              let bin_str := zfill (slice_from fp_str 2) w in
              ret (slice_from bin_str (len bin_str - w))) ;;
         _ <- update_bit_labels bin_str ;;
         self <- gets extractor ;;
         lift (get_fp_expression self))
        (fun msg => ret msg) ;;
    set_result_label result_text
  else
    set_result_label (lit "Please start with [0x] or [0b]").

(** The row that [create_widgets] builds for a format: every bit label
    shows 0 and the result label is empty. *)
Definition Row_init (name : str) (fmt : FPFormat) : Row :=
  mkRow (FPExtractor_init name fmt)
        (repeat (lit "0") (Z.to_nat (width fmt)))
        [].

(** ** Reference definitions for the statements *)

(** The pattern of the [w] low bits of [n], most significant bit first: the
    zero-padded binary string of length [w] of a number below [2^w]. *)
Fixpoint to_bits (w : nat) (n : Z) : str :=
  match w with
  | O => []
  | S w' => to_bits w' (Z.div2 n) ++ [if Z.odd n then "1"%char else "0"%char]
  end.

(** The last [k] characters of a string. *)
Definition lastn (k : nat) (s : str) : str := skipn (List.length s - k) s.

(** The bits [msb .. lsb] (counted from the least significant bit) of a
    pattern of [w] bits that is written most significant bit first. *)
Definition field (w msb lsb : Z) (bits : str) : str :=
  firstn (Z.to_nat (msb - lsb + 1)) (skipn (Z.to_nat (w - 1 - msb)) bits).

(** The three fields of a pattern, cut directly from its written order. *)
Definition fields_of (fmt : FPFormat) (bits : str) : Fp :=
  mkFp (firstn 1 bits)
       (field (width fmt) (fst (exponent fmt)) (snd (exponent fmt)) bits)
       (field (width fmt) (fst (mantissa fmt)) (snd (mantissa fmt)) bits).

(** What both extractors keep of a digit string: it is padded to the width,
    then cut to its last [width] characters. *)
Definition clip (s : str) (w : Z) : str :=
  slice_from (zfill s w) (len (zfill s w) - w).

(** The value of a string of binary digits read as an unsigned integer,
    continuing from [acc]. *)
Fixpoint bits_value (acc : Z) (s : str) : Z :=
  match s with
  | [] => acc
  | c :: s' => bits_value (2 * acc + (if Ascii.eqb c "1" then 1 else 0)) s'
  end.

(** One decode-and-classify cycle on a fresh extractor of the format: the
    extraction, then the classification when the extraction has not raised. *)
Definition decode_and_classify (name : str) (fmt : FPFormat) (input : str)
  : result str :=
  let (r, st) := extract_fp_str input (FPExtractor_init name fmt) in
  _ <~ r ;; get_fp_expression st.

(** The width of a field given by its [(msb, lsb)] pair. *)
Definition field_width (range : Z * Z) : Z := fst range - snd range + 1.

(** Whether a result is the given text. *)
Definition is_text (r : result str) (s : string) : bool :=
  match r with
  | inr t => str_eqb t (lit s)
  | inl _ => false
  end.

(** The classification of the 8-bit pattern of [n] in the format FP8_E4M3. *)
Definition e4m3_classify (n : Z) : result str :=
  decode_and_classify (lit "FP8_E4M3") FP8_E4M3 (lit "0b" ++ to_bits 8 n).

(** The check of one encoding of FP8_E4M3: its classification is NaN
    exactly when it is 127 or 255, and it is never an infinity. *)
Definition e4m3_entry_ok (k : nat) : bool :=
  let r := e4m3_classify (Z.of_nat k) in
  Bool.eqb (is_text r "NaN") ((k =? 127) || (k =? 255))%nat
  && negb (is_text r "+Inf") && negb (is_text r "-Inf").

(** The layouts on which the slices of the extractors stay inside the
    pattern. *)
Definition layout_ok (fmt : FPFormat) : Prop :=
  1 < snd (exponent fmt) <= fst (exponent fmt)
  /\ fst (exponent fmt) < width fmt
  /\ 0 <= snd (mantissa fmt) <= fst (mantissa fmt)
  /\ fst (mantissa fmt) < width fmt.

(** The object after a successful extraction of the fields [fp]. *)
Definition with_fields (st : FPExtractor) (fp : Fp) : FPExtractor :=
  mkFPExtractor (fmt_name st) (fp_fmt st)
                (Some (fp_sign fp)) (Some (fp_exponent fp))
                (Some (fp_mantissa fp)).

(** ** The formatter *)

(** The bounds of a slice with a positive step: a negative index counts
    from the end, then it clips to [0 .. len]. *)
Definition adjust_fwd (n i : Z) : Z :=
  if i <? 0 then Z.max 0 (i + n) else Z.min i n.

(** [s[start:stop]] *)
Definition slice (s : str) (start stop : Z) : str :=
  let n := len s in
  let a := adjust_fwd n start in
  let b := adjust_fwd n stop in
  firstn (Z.to_nat (b - a)) (skipn (Z.to_nat a) s).

(** [range(start, stop, step)] for a positive step. *)
Definition range_step (start stop step : Z) : list Z :=
  map (fun k => start + step * Z.of_nat k)
      (seq 0 (Z.to_nat ((stop - start + step - 1) / step))).

(** [sep.join(parts)] *)
Fixpoint join (sep : str) (parts : list str) : str :=
  match parts with
  | [] => []
  | p :: rest =>
      match rest with
      | [] => p
      | _ :: _ => p ++ sep ++ join sep rest
      end
  end.

Definition bin_formatter (bin_str : str) : str :=
  join (lit "_")
       (map (fun i => slice bin_str i (i + 4))
            (range_step 0 (len bin_str) 4)).

(** ** Further reference definitions *)

(** The inputs that the extraction accepts: the prefix in either case,
    then at least one hexadecimal digit, or any number of binary digits. *)
Definition well_formed_input (s : str) : bool :=
  let t := lower s in
  if startswith t (lit "0x") then
    match slice_from t 2 with
    | [] => false
    | h => hex_str_check h
    end
  else if startswith t (lit "0b") then bin_str_check (slice_from t 2)
  else false.

(** The digits of the two bases, by their code points. *)
Definition is_bin_digit (c : ascii) : bool :=
  let n := N_of_ascii c in
  ((n =? 48) || (n =? 49))%N.

Definition is_hex_digit (c : ascii) : bool :=
  let n := N_of_ascii c in
  (((48 <=? n) && (n <=? 57)) || ((97 <=? n) && (n <=? 102))
   || ((65 <=? n) && (n <=? 70)))%N.

(** The grammar of the inputs, written on the characters themselves: [0x]
    or [0X] and one hexadecimal digit or more, or [0b] or [0B] and any
    number of binary digits. *)
Definition in_grammar (s : str) : bool :=
  match s with
  | z :: p :: digits =>
      Ascii.eqb z "0"
      && (((Ascii.eqb p "x" || Ascii.eqb p "X")
           && match digits with [] => false | _ :: _ => true end
           && forallb is_hex_digit digits)
          || ((Ascii.eqb p "b" || Ascii.eqb p "B")
              && forallb is_bin_digit digits))
  | _ => false
  end.

(** A row of a format: its extractor is of the format and it has one bit
    label for each bit. *)
Definition row_ok (fmt : FPFormat) (row : Row) : Prop :=
  fp_fmt (extractor row) = fmt
  /\ List.length (bit_labels row) = Z.to_nat (width fmt).

(** The handler run on the successive texts of an entry. *)
Fixpoint update_all (inputs : list str) : M Row unit :=
  match inputs with
  | [] => ret tt
  | input_str :: rest => _ <- update_bits input_str ;; update_all rest
  end.

(** * Properties *)

(** ** Lists and slices *)

Lemma len_nonneg (s : str) : 0 <= len s.
Proof. unfold len; lia. Qed.

Lemma len_rev (s : str) : len (rev s) = len s.
Proof. unfold len; now rewrite length_rev. Qed.

Lemma slice_from_2 (a b : ascii) (s : str) : slice_from (a :: b :: s) 2 = s.
Proof.
  unfold slice_from. destruct (Z.ltb_spec 2 0); [lia|].
  rewrite Z.min_l by (unfold len; simpl List.length; lia). reflexivity.
Qed.

Lemma adjust_rev_inside (n i : Z) : 0 <= i < n -> adjust_rev n i = i.
Proof.
  intros H. unfold adjust_rev.
  destruct (Z.ltb_spec i 0); [lia|].
  destruct (Z.leb_spec n i); [lia|reflexivity].
Qed.

(** A backward slice of the reversed pattern is a forward slice of the
    pattern itself. *)
Lemma slice_rev_rev (b : str) (hi j : Z) :
  -1 <= j -> j < hi -> hi < len b ->
  rev (firstn (Z.to_nat (hi - j)) (skipn (Z.to_nat (j + 1)) (rev b)))
  = firstn (Z.to_nat (hi - j)) (skipn (Z.to_nat (len b - 1 - hi)) b).
Proof.
  intros Hj Hlt Hhi. unfold len in *.
  rewrite skipn_rev, firstn_rev, rev_involutive, skipn_firstn_comm.
  rewrite length_firstn.
  replace (Nat.min (List.length b - Z.to_nat (j + 1)) (List.length b)
           - Z.to_nat (hi - j))%nat
    with (Z.to_nat (Z.of_nat (List.length b) - 1 - hi)) by lia.
  f_equal; lia.
Qed.

Lemma slice_rev_some (b : str) (hi lo : Z) :
  1 <= lo -> lo <= hi -> hi < len b ->
  slice_rev (rev b) hi (Some (lo - 1)) = field (len b) hi lo b.
Proof.
  intros H1 H2 H3. unfold slice_rev, field.
  rewrite len_rev, !adjust_rev_inside by lia.
  rewrite slice_rev_rev by lia.
  f_equal; lia.
Qed.

Lemma slice_rev_none (b : str) (hi : Z) :
  0 <= hi -> hi < len b ->
  slice_rev (rev b) hi None = field (len b) hi 0 b.
Proof.
  intros H1 H2. unfold slice_rev, field.
  rewrite len_rev, adjust_rev_inside by lia.
  rewrite slice_rev_rev by lia.
  f_equal; lia.
Qed.

Lemma index_rev_last (b : str) :
  0 < len b -> index (rev b) (len b - 1) = OK (firstn 1 b).
Proof.
  intros H. unfold index. rewrite len_rev.
  destruct (Z.ltb_spec (len b - 1) 0); [lia|].
  destruct (Z.leb_spec 0 (len b - 1)); [|lia].
  destruct (Z.ltb_spec (len b - 1) (len b)); [|lia].
  simpl. f_equal.
  destruct b as [|c b']; [unfold len in H; simpl in H; lia|].
  simpl rev.
  replace (Z.to_nat (len (c :: b') - 1)) with (List.length (rev b') + 0)%nat
    by (unfold len; simpl List.length; rewrite length_rev; lia).
  rewrite skipn_app, skipn_all2 by lia. simpl.
  replace (List.length (rev b') + 0 - List.length (rev b'))%nat with O by lia.
  reflexivity.
Qed.

(** ** The extractors cut the fields of the pattern *)

Lemma extract_sign_rev (fmt : FPFormat) (b : str) :
  0 < width fmt -> len b = width fmt ->
  extract_sign (rev b) fmt = OK (firstn 1 b).
Proof.
  intros Hw Hlen. unfold extract_sign. rewrite <- Hlen.
  apply index_rev_last. lia.
Qed.

Lemma extract_exponent_rev (fmt : FPFormat) (b : str) :
  layout_ok fmt -> len b = width fmt ->
  extract_exponent (rev b) fmt
  = OK (field (width fmt) (fst (exponent fmt)) (snd (exponent fmt)) b).
Proof.
  intros (He & He' & _) Hlen. unfold extract_exponent, py_assert.
  destruct (Z.ltb_spec 1 (snd (exponent fmt))); [|lia].
  simpl. rewrite slice_rev_some by lia. now rewrite Hlen.
Qed.

Lemma extract_mantissa_rev (fmt : FPFormat) (b : str) :
  layout_ok fmt -> len b = width fmt ->
  extract_mantissa (rev b) fmt
  = OK (field (width fmt) (fst (mantissa fmt)) (snd (mantissa fmt)) b).
Proof.
  intros (_ & _ & Hm & Hm') Hlen. unfold extract_mantissa.
  destruct (Z.eqb_spec (snd (mantissa fmt)) 0) as [E|E].
  - rewrite E, slice_rev_none by lia. now rewrite Hlen.
  - rewrite slice_rev_some by lia. now rewrite Hlen.
Qed.

Lemma layout_width_pos (fmt : FPFormat) : layout_ok fmt -> 0 < width fmt.
Proof. unfold layout_ok; lia. Qed.

Lemma catalog_layout_ok (name : str) (fmt : FPFormat) :
  In (name, fmt) FP_CONFIG -> layout_ok fmt.
Proof.
  unfold FP_CONFIG. simpl. intros H.
  repeat (destruct H as [H|H];
          [injection H as _ <-; unfold layout_ok; simpl; lia|]).
  destruct H.
Qed.

(** ** Binary strings *)

Lemma bin_str_check_app (a b : str) :
  bin_str_check (a ++ b) = bin_str_check a && bin_str_check b.
Proof. apply forallb_app. Qed.

Lemma bin_str_check_repeat0 (k : nat) :
  bin_str_check (repeat "0"%char k) = true.
Proof. induction k; simpl; auto. Qed.

Lemma bin_str_check_skipn (k : nat) (s : str) :
  bin_str_check s = true -> bin_str_check (skipn k s) = true.
Proof.
  intros H. rewrite <- (firstn_skipn k s), bin_str_check_app in H.
  now apply andb_true_iff in H.
Qed.

Lemma bin_str_check_firstn (k : nat) (s : str) :
  bin_str_check s = true -> bin_str_check (firstn k s) = true.
Proof.
  intros H. rewrite <- (firstn_skipn k s), bin_str_check_app in H.
  now apply andb_true_iff in H.
Qed.

Lemma bin_char_cases (c : ascii) :
  ascii_in c (lit "01") = true -> c = "0"%char \/ c = "1"%char.
Proof.
  simpl. rewrite orb_false_r. intros H. apply orb_true_iff in H.
  destruct H as [H|H]; apply Ascii.eqb_eq in H; auto.
Qed.

Lemma bin_str_check_cons (c : ascii) (s : str) :
  bin_str_check (c :: s) = true ->
  (c = "0"%char \/ c = "1"%char) /\ bin_str_check s = true.
Proof.
  intros H. change (ascii_in c (lit "01") && bin_str_check s = true) in H.
  apply andb_true_iff in H. destruct H as [H1 H2].
  split; [now apply bin_char_cases|assumption].
Qed.

Lemma to_bits_length (w : nat) (n : Z) : List.length (to_bits w n) = w.
Proof.
  revert n. induction w as [|w IH]; intros n; simpl; [reflexivity|].
  rewrite length_app, IH. simpl. lia.
Qed.

Lemma to_bits_len (w : nat) (n : Z) : len (to_bits w n) = Z.of_nat w.
Proof. unfold len. now rewrite to_bits_length. Qed.

Lemma to_bits_check (w : nat) (n : Z) : bin_str_check (to_bits w n) = true.
Proof.
  revert n. induction w as [|w IH]; intros n; simpl; [reflexivity|].
  rewrite bin_str_check_app, IH. now destruct (Z.odd n).
Qed.

Lemma to_bits_zero (w : nat) : to_bits w 0 = repeat "0"%char w.
Proof.
  induction w as [|w IH]; simpl; [reflexivity|].
  rewrite IH. change ["0"%char] with (repeat "0"%char 1).
  rewrite <- repeat_app. now replace (w + 1)%nat with (S w) by lia.
Qed.

(** On a string of binary digits [zfill] only adds zeros in front. *)
Lemma zfill_bin (s : str) (w : Z) :
  bin_str_check s = true ->
  zfill s w = repeat "0"%char (Z.to_nat (w - len s)) ++ s.
Proof.
  intros H. unfold zfill.
  destruct (Z.leb_spec w (len s)).
  - now replace (Z.to_nat (w - len s)) with O by lia.
  - destruct s as [|c s']; [now rewrite app_nil_r|].
    apply bin_str_check_cons in H. destruct H as [[-> | ->] _]; reflexivity.
Qed.

Lemma clip_bin (s : str) (w : Z) :
  0 <= w -> bin_str_check s = true ->
  clip s w
  = lastn (Z.to_nat w) (repeat "0"%char (Z.to_nat w - List.length s) ++ s).
Proof.
  intros Hw H. unfold clip, slice_from, lastn. rewrite (zfill_bin _ _ H).
  replace (Z.to_nat (w - len s)) with (Z.to_nat w - List.length s)%nat
    by (unfold len; lia).
  set (t := repeat "0"%char (Z.to_nat w - List.length s) ++ s).
  assert (Ht : (Z.to_nat w <= List.length t)%nat).
  { unfold t. rewrite length_app, repeat_length. lia. }
  destruct (Z.ltb_spec (len t - w) 0); [unfold len in *; lia|].
  f_equal. unfold len. lia.
Qed.

Lemma clip_length (s : str) (w : Z) :
  0 <= w -> bin_str_check s = true -> len (clip s w) = w.
Proof.
  intros Hw H. rewrite clip_bin by assumption. unfold lastn, len.
  rewrite length_skipn, length_app, repeat_length. lia.
Qed.

Lemma clip_check (s : str) (w : Z) :
  0 <= w -> bin_str_check s = true -> bin_str_check (clip s w) = true.
Proof.
  intros Hw H. rewrite clip_bin by assumption. unfold lastn.
  apply bin_str_check_skipn.
  now rewrite bin_str_check_app, bin_str_check_repeat0.
Qed.

Lemma clip_long (s : str) (w : Z) :
  0 <= w -> bin_str_check s = true -> w <= len s ->
  clip s w = lastn (Z.to_nat w) s.
Proof.
  intros Hw H Hl. rewrite clip_bin by assumption.
  now replace (Z.to_nat w - List.length s)%nat with O by (unfold len in Hl; lia).
Qed.

Lemma clip_exact (s : str) (w : Z) :
  bin_str_check s = true -> len s = w -> clip s w = s.
Proof.
  intros H Hl. rewrite clip_long
    by (try assumption; pose proof (len_nonneg s); lia).
  unfold lastn.
  now replace (List.length s - Z.to_nat w)%nat with O by (unfold len in Hl; lia).
Qed.

Lemma lastn_snoc (k : nat) (s : str) (c : ascii) :
  (k <= List.length s)%nat -> lastn (S k) (s ++ [c]) = lastn k s ++ [c].
Proof.
  intros H. unfold lastn. rewrite length_app. simpl List.length.
  replace (List.length s + 1 - S k)%nat with (List.length s - k)%nat by lia.
  rewrite skipn_app.
  replace (List.length s - k - List.length s)%nat with O by lia.
  reflexivity.
Qed.

(** The extractor on a checked digit string returns the fields of the
    clipped pattern. *)
Lemma bin_extractor_fields (fmt : FPFormat) (d : str) :
  layout_ok fmt -> bin_str_check d = true ->
  bin_extractor d fmt = OK (fields_of fmt (clip d (width fmt))).
Proof.
  intros Hl Hd. pose proof (layout_width_pos _ Hl) as Hw.
  unfold bin_extractor. rewrite Hd. simpl negb. cbv iota.
  fold (clip d (width fmt)). unfold reversed.
  assert (Hc : len (clip d (width fmt)) = width fmt)
    by (apply clip_length; [lia|assumption]).
  rewrite len_rev, Hc, Z.eqb_refl. simpl.
  rewrite extract_sign_rev by assumption. simpl.
  rewrite extract_exponent_rev by assumption. simpl.
  rewrite extract_mantissa_rev by assumption. reflexivity.
Qed.

Lemma bin_extractor_exact (fmt : FPFormat) (b : str) :
  layout_ok fmt -> bin_str_check b = true -> len b = width fmt ->
  bin_extractor b fmt = OK (fields_of fmt b).
Proof.
  intros Hl Hc Hlen. rewrite bin_extractor_fields by assumption.
  now rewrite clip_exact.
Qed.

(** ** Values of digit strings *)

Lemma digits_value_snoc (base acc : Z) (s : str) (c : ascii) :
  digits_value base acc (s ++ [c])
  = match digits_value base acc s with
    | Some v =>
        match digit_value c with
        | Some d => if d <? base then Some (base * v + d) else None
        | None => None
        end
    | None => None
    end.
Proof.
  revert acc. induction s as [|a s IH]; intros acc; simpl.
  - destruct (digit_value c) as [d|]; [|reflexivity].
    now destruct (d <? base).
  - destruct (digit_value a) as [d|]; [|reflexivity].
    destruct (d <? base); [apply IH|reflexivity].
Qed.

Lemma digits_value_bin (acc : Z) (s : str) :
  bin_str_check s = true -> digits_value 2 acc s = Some (bits_value acc s).
Proof.
  revert acc. induction s as [|c s IH]; intros acc H; [reflexivity|].
  apply bin_str_check_cons in H. destruct H as [[-> | ->] H]; simpl;
    now rewrite IH.
Qed.

Lemma py_int_bin (s : str) :
  s <> [] -> bin_str_check s = true -> py_int s 2 = OK (bits_value 0 s).
Proof.
  intros Hne H. unfold py_int. destruct s as [|c s]; [congruence|].
  now rewrite digits_value_bin.
Qed.

Lemma bits_value_snoc (acc : Z) (s : str) (c : ascii) :
  bits_value acc (s ++ [c])
  = 2 * bits_value acc s + (if Ascii.eqb c "1" then 1 else 0).
Proof. revert acc. induction s as [|a s IH]; intros acc; simpl; auto. Qed.

Lemma bits_value_lower (acc : Z) (s : str) : 0 <= acc -> acc <= bits_value acc s.
Proof.
  revert acc. induction s as [|c s IH]; intros acc H; cbn [bits_value]; [lia|].
  assert (H' : 0 <= 2 * acc + (if Ascii.eqb c "1" then 1 else 0))
    by (destruct (Ascii.eqb c "1"); lia).
  specialize (IH _ H'). destruct (Ascii.eqb c "1"); lia.
Qed.

(** A binary string has value zero exactly when it is made of zeros. *)
Lemma bits_value_zero_iff (s : str) :
  bin_str_check s = true ->
  (bits_value 0 s = 0 <-> s = repeat "0"%char (List.length s)).
Proof.
  induction s as [|c s IH]; intros H; [simpl; tauto|].
  apply bin_str_check_cons in H. destruct H as [[-> | ->] H]; simpl.
  - rewrite (IH H). split; [now intros <-|]. intros E. now injection E.
  - split; [|discriminate]. intros E.
    pose proof (bits_value_lower 1 s). lia.
Qed.

Lemma bits_value_to_bits (w : nat) (n : Z) :
  bits_value 0 (to_bits w n) = n mod 2 ^ Z.of_nat w.
Proof.
  revert n. induction w as [|w IH]; intros n.
  - simpl. now rewrite Z.mod_1_r.
  - simpl to_bits. rewrite bits_value_snoc, IH.
    replace (if Ascii.eqb (if Z.odd n then "1"%char else "0"%char) "1"
             then 1 else 0) with (Z.b2z (Z.odd n)) by now destruct (Z.odd n).
    rewrite Nat2Z.inj_succ, Z.pow_succ_r by lia.
    rewrite Z.rem_mul_r by lia.
    rewrite <- Z.bit0_mod, Z.bit0_odd, Z.div2_div. lia.
Qed.

(** Decoding the pattern of a number below [2^w] gives the number back. *)
Lemma py_int_to_bits (w : nat) (n : Z) :
  (0 < w)%nat -> 0 <= n < 2 ^ Z.of_nat w -> py_int (to_bits w n) 2 = OK n.
Proof.
  intros Hw Hn. rewrite py_int_bin.
  - now rewrite bits_value_to_bits, Z.mod_small.
  - intros E. apply (f_equal (@List.length ascii)) in E.
    rewrite to_bits_length in E. simpl in E. lia.
  - apply to_bits_check.
Qed.

Lemma pos_bin_check (p : positive) : bin_str_check (pos_bin p) = true.
Proof.
  induction p; simpl; rewrite ?bin_str_check_app, ?IHp; reflexivity.
Qed.

Lemma pad_lastn_snoc (w : nat) (s : str) (c : ascii) :
  lastn (S w) (repeat "0"%char (S w - List.length (s ++ [c])) ++ s ++ [c])
  = lastn w (repeat "0"%char (w - List.length s) ++ s) ++ [c].
Proof.
  rewrite length_app. simpl List.length.
  replace (S w - (List.length s + 1))%nat with (w - List.length s)%nat by lia.
  rewrite app_assoc. apply lastn_snoc.
  rewrite length_app, repeat_length. lia.
Qed.

Lemma pad_lastn_nil (w : nat) :
  lastn w (repeat "0"%char (w - 0) ++ []) = repeat "0"%char w.
Proof.
  unfold lastn. rewrite app_nil_r, repeat_length, Nat.sub_0_r, Nat.sub_diag.
  reflexivity.
Qed.

Lemma pad_lastn_pos_bin (w : nat) (p : positive) :
  lastn w (repeat "0"%char (w - List.length (pos_bin p)) ++ pos_bin p)
  = to_bits w (Zpos p).
Proof.
  revert p. induction w as [|w IH]; intros p.
  - unfold lastn. simpl. now rewrite Nat.sub_0_r, skipn_all.
  - destruct p as [p|p|]; simpl pos_bin.
    + rewrite pad_lastn_snoc, IH. reflexivity.
    + rewrite pad_lastn_snoc, IH. reflexivity.
    + change ["1"%char] with ([] ++ ["1"%char]).
      rewrite pad_lastn_snoc. simpl List.length.
      rewrite pad_lastn_nil. simpl. now rewrite to_bits_zero.
Qed.

(** [bin(n)[2:]] padded and cut to [w] characters is the pattern of the [w]
    low bits of [n]. *)
Lemma clip_bin_digits (n w : Z) :
  0 <= n -> 0 <= w ->
  clip (slice_from (py_bin n) 2) w = to_bits (Z.to_nat w) n.
Proof.
  intros Hn Hw. destruct n as [|p|p]; [| |lia].
  - change (slice_from (py_bin 0) 2) with ([] ++ ["0"%char]).
    rewrite clip_bin by auto.
    destruct (Z.to_nat w) as [|k].
    + reflexivity.
    + rewrite pad_lastn_snoc. simpl List.length. rewrite pad_lastn_nil.
      simpl. now rewrite to_bits_zero.
  - replace (slice_from (py_bin (Z.pos p)) 2) with (pos_bin p).
    + rewrite clip_bin by (auto using pos_bin_check).
      apply pad_lastn_pos_bin.
    + unfold slice_from, py_bin.
      assert (H : 2 <= len (lit "0b" ++ pos_bin p))
        by (unfold len; rewrite length_app; simpl; lia).
      destruct (Z.ltb_spec 2 0); [lia|].
      now rewrite Z.min_l by lia.
Qed.

Lemma pos_bin_size (p : positive) :
  2 ^ (len (pos_bin p) - 1) <= Z.pos p.
Proof.
  induction p as [p IH|p IH|]; simpl pos_bin; [| |simpl; lia].
  - unfold len in *. rewrite length_app. simpl List.length.
    assert (Hp : (0 < List.length (pos_bin p))%nat)
      by (destruct p; simpl; rewrite ?length_app; simpl; lia).
    replace (Z.of_nat (List.length (pos_bin p) + 1) - 1)
      with (Z.succ (Z.of_nat (List.length (pos_bin p)) - 1)) by lia.
    rewrite Z.pow_succ_r by lia. lia.
  - unfold len in *. rewrite length_app. simpl List.length.
    assert (Hp : (0 < List.length (pos_bin p))%nat)
      by (destruct p; simpl; rewrite ?length_app; simpl; lia).
    replace (Z.of_nat (List.length (pos_bin p) + 1) - 1)
      with (Z.succ (Z.of_nat (List.length (pos_bin p)) - 1)) by lia.
    rewrite Z.pow_succ_r by lia. lia.
Qed.

(** For a number below [2^w] the pattern [to_bits] is what Python writes
    for it with zero padding to [w] digits, [bin(n)[2:].zfill(w)]. *)
Lemma to_bits_is_zfill (n w : Z) :
  0 < w -> 0 <= n < 2 ^ w ->
  zfill (slice_from (py_bin n) 2) w = to_bits (Z.to_nat w) n.
Proof.
  intros Hw Hn. rewrite <- clip_bin_digits by lia.
  assert (Hlen : len (slice_from (py_bin n) 2) <= w).
  { destruct n as [|p|p]; [unfold len; simpl; lia| |lia].
    change (py_bin (Z.pos p)) with ("0"%char :: "b"%char :: pos_bin p).
    rewrite slice_from_2. pose proof (pos_bin_size p) as Hs.
    destruct (Z.le_gt_cases (len (pos_bin p)) w) as [Hle|Hgt]; [exact Hle|].
    assert (2 ^ w <= 2 ^ (len (pos_bin p) - 1))
      by (apply Z.pow_le_mono_r; lia).
    lia. }
  assert (Hc : bin_str_check (slice_from (py_bin n) 2) = true).
  { destruct n as [|p|p]; [reflexivity| |lia].
    change (py_bin (Z.pos p)) with ("0"%char :: "b"%char :: pos_bin p).
    rewrite slice_from_2. apply pos_bin_check. }
  unfold clip. set (z := zfill (slice_from (py_bin n) 2) w).
  assert (Hz : len z = w).
  { unfold z. rewrite zfill_bin by assumption.
    unfold len in *. rewrite length_app, repeat_length. lia. }
  rewrite Hz, Z.sub_diag. unfold slice_from.
  change (0 <? 0) with false. cbv iota.
  rewrite Z.min_l by apply len_nonneg. reflexivity.
Qed.

(** ** Hexadecimal digit strings *)

Lemma hex_char_digit (c : ascii) :
  ascii_in (lower_char c) (lit "0123456789abcdef") = true ->
  exists d, digit_value c = Some d /\ 0 <= d < 16.
Proof.
  destruct c as [b0 b1 b2 b3 b4 b5 b6 b7].
  destruct b0, b1, b2, b3, b4, b5, b6, b7; intros H;
    vm_compute in H; try discriminate H;
    eexists; (split; [vm_compute; reflexivity|lia]).
Qed.

Lemma digits_value_hex (acc : Z) (h : str) :
  0 <= acc -> hex_str_check h = true ->
  exists v, digits_value 16 acc h = Some v /\ 0 <= v.
Proof.
  revert acc. induction h as [|c h IH]; intros acc Hacc H.
  - exists acc. now split.
  - unfold hex_str_check in H. simpl in H. apply andb_true_iff in H.
    destruct H as [Hc Hh].
    destruct (hex_char_digit c Hc) as (d & Hd & Hr).
    cbn [digits_value]. rewrite Hd.
    destruct (Z.ltb_spec d 16); [|lia].
    apply IH; [lia|exact Hh].
Qed.

Lemma py_int_hex (h : str) :
  h <> [] -> hex_str_check h = true ->
  exists v, py_int h 16 = OK v /\ 0 <= v.
Proof.
  intros Hne H. destruct (digits_value_hex 0 h) as (v & Hv & Hpos);
    [lia|assumption|].
  exists v. split; [|assumption].
  unfold py_int. destruct h; [congruence|]. now rewrite Hv.
Qed.

(** The conversion of a hexadecimal digit string keeps the low [width] bits
    of its value. *)
Lemma hex_str_to_bin_bits (h : str) (w v : Z) :
  0 <= w -> 0 <= v -> py_int h 16 = OK v ->
  hex_str_to_bin h w = OK (to_bits (Z.to_nat w) v).
Proof.
  intros Hw Hv H. unfold hex_str_to_bin. rewrite H. simpl rbind.
  fold (clip (slice_from (py_bin v) 2) w).
  now rewrite clip_bin_digits.
Qed.

Lemma hex_extractor_fields (fmt : FPFormat) (h : str) (v : Z) :
  layout_ok fmt -> hex_str_check h = true -> 0 <= v ->
  py_int h 16 = OK v ->
  hex_extractor h fmt
  = OK (fields_of fmt (to_bits (Z.to_nat (width fmt)) v)).
Proof.
  intros Hl Hc Hv H. pose proof (layout_width_pos _ Hl) as Hw.
  unfold hex_extractor. rewrite Hc. simpl negb. cbv iota.
  rewrite (hex_str_to_bin_bits h (width fmt) v) by (assumption || lia).
  simpl rbind. unfold reversed.
  assert (Hb : len (to_bits (Z.to_nat (width fmt)) v) = width fmt)
    by (rewrite to_bits_len; lia).
  rewrite len_rev, Hb, Z.eqb_refl. simpl.
  rewrite extract_sign_rev by assumption. simpl.
  rewrite extract_exponent_rev by assumption. simpl.
  rewrite extract_mantissa_rev by assumption. reflexivity.
Qed.

(** ** The methods of the extractor *)

Lemma extract_bin_ok (st : FPExtractor) (d : str) (fp : Fp) :
  bin_extractor d (fp_fmt st) = OK fp ->
  extract_bin d st = (OK tt, with_fields st fp).
Proof.
  intros H. unfold extract_bin, bind, gets, lift, modify, OK in *.
  cbv beta iota. now rewrite H.
Qed.

Lemma extract_hex_ok (st : FPExtractor) (h : str) (fp : Fp) :
  hex_extractor h (fp_fmt st) = OK fp ->
  extract_hex h st = (OK tt, with_fields st fp).
Proof.
  intros H. unfold extract_hex, bind, gets, lift, modify, OK in *.
  cbv beta iota. now rewrite H.
Qed.

Lemma extract_bin_raise (st : FPExtractor) (d : str) (e : exn) :
  bin_extractor d (fp_fmt st) = Raise e -> extract_bin d st = (Raise e, st).
Proof.
  intros H. unfold extract_bin, bind, gets, lift, OK, Raise in *.
  cbv beta iota. now rewrite H.
Qed.

Lemma extract_hex_raise (st : FPExtractor) (h : str) (e : exn) :
  hex_extractor h (fp_fmt st) = Raise e -> extract_hex h st = (Raise e, st).
Proof.
  intros H. unfold extract_hex, bind, gets, lift, OK, Raise in *.
  cbv beta iota. now rewrite H.
Qed.

Lemma lower_bin (s : str) : bin_str_check s = true -> lower s = s.
Proof.
  induction s as [|c s IH]; intros H; [reflexivity|].
  apply bin_str_check_cons in H. destruct H as [[-> | ->] H]; simpl;
    now rewrite (IH H).
Qed.

(** A binary literal reaches [extract_bin] with its digits unchanged. *)
Lemma extract_fp_str_0b (st : FPExtractor) (d : str) :
  bin_str_check d = true ->
  extract_fp_str (lit "0b" ++ d) st = extract_bin d st.
Proof.
  intros H. unfold extract_fp_str, lower. rewrite map_app. fold (lower d).
  rewrite (lower_bin d H).
  change (map lower_char (lit "0b") ++ d) with ("0"%char :: "b"%char :: d).
  rewrite slice_from_2. reflexivity.
Qed.

Lemma field_length (w msb lsb : Z) (b : str) :
  0 <= lsb <= msb -> msb < w -> len b = w ->
  len (field w msb lsb b) = msb - lsb + 1.
Proof.
  intros H1 H2 Hb. unfold field, len in *.
  rewrite length_firstn, length_skipn. lia.
Qed.

Lemma field_check (w msb lsb : Z) (b : str) :
  bin_str_check b = true -> bin_str_check (field w msb lsb b) = true.
Proof.
  intros H. unfold field.
  now apply bin_str_check_firstn, bin_str_check_skipn.
Qed.

Lemma len_pos_nonempty (s : str) : 0 < len s -> s <> [].
Proof. intros H ->. unfold len in H. simpl in H. lia. Qed.

(** The classifier returns a text whenever both fields are non-empty binary
    strings. *)
Lemma get_fp_expression_total (st : FPExtractor) (e m : str) :
  exponent_bits st = Some e -> mantissa_bits st = Some m ->
  e <> [] -> m <> [] ->
  bin_str_check e = true -> bin_str_check m = true ->
  exists text, get_fp_expression st = OK text.
Proof.
  intros He Hm Hne Hnm Hce Hcm.
  unfold get_fp_expression, get_exponent_value, get_mantissa_value,
    int_of_field.
  rewrite He, Hm, (py_int_bin e Hne Hce), (py_int_bin m Hnm Hcm).
  simpl rbind.
  repeat match goal with
         | |- context [if ?c then _ else _] => destruct c
         end; eexists; reflexivity.
Qed.

(** ** Zero (C1) *)

Lemma str_eqb_eq (a b : str) : str_eqb a b = true <-> a = b.
Proof.
  revert b. induction a as [|x a IH]; intros [|y b]; simpl;
    try (split; [discriminate|discriminate]); [tauto|].
  rewrite andb_true_iff, Ascii.eqb_eq, IH.
  split; [intros [-> ->]; reflexivity|intros E; injection E; auto].
Qed.

Lemma is_text_iff (r : result str) (s : string) :
  is_text r s = true <-> r = OK (lit s).
Proof.
  destruct r as [e|t]; simpl.
  - split; discriminate.
  - rewrite str_eqb_eq. unfold OK. split; [now intros ->|].
    intros E. now injection E.
Qed.

(** In every format of the table but FP8_E4M3 the all-zero pattern is
    [+Zero] and the pattern with only the sign bit set is [-Zero]. *)
Lemma zero_patterns_standard (name : str) (fmt : FPFormat) :
  In (name, fmt) FP_CONFIG -> name <> lit "FP8_E4M3" ->
  decode_and_classify name fmt
    (lit "0b" ++ repeat "0"%char (Z.to_nat (width fmt))) = OK (lit "+Zero")
  /\ decode_and_classify name fmt
       (lit "0b" ++ "1"%char :: repeat "0"%char (Z.to_nat (width fmt - 1)))
     = OK (lit "-Zero").
Proof.
  unfold FP_CONFIG. simpl In. intros H Hn.
  repeat (destruct H as [H|H];
          [injection H as <- <-;
           first [now (split; vm_compute; reflexivity)
                 |exfalso; now apply Hn]|]).
  destruct H.
Qed.

(** C1 (the code departs from the claim): in FP8_E4M3 the two zero texts are
    exchanged.  The all-zero pattern is rendered [-Zero] and the pattern
    with only the sign bit set is rendered [+Zero], because
    [get_e4m3_expression] tests [sign == "1"] where [get_fp_expression]
    tests [is_positive]. *)
Theorem C1_e4m3_zero_sign_swapped :
  decode_and_classify (lit "FP8_E4M3") FP8_E4M3 (lit "0b00000000")
  = OK (lit "-Zero")
  /\ decode_and_classify (lit "FP8_E4M3") FP8_E4M3 (lit "0b10000000")
     = OK (lit "+Zero")
  /\ decode_and_classify (lit "FP8_E4M3") FP8_E4M3 (lit "0x00")
     = OK (lit "-Zero")
  /\ decode_and_classify (lit "FP8_E4M3") FP8_E4M3 (lit "0x80")
     = OK (lit "+Zero").
Proof. repeat split; vm_compute; reflexivity. Qed.

(** ** The format without infinities (C3) *)

Lemma e4m3_all_entries_ok : forallb e4m3_entry_ok (seq 0 256) = true.
Proof. vm_compute. reflexivity. Qed.

Lemma e4m3_table_entry (k : nat) : (k < 256)%nat -> e4m3_entry_ok k = true.
Proof.
  intros Hk. pose proof e4m3_all_entries_ok as H.
  rewrite forallb_forall in H. apply H, in_seq. lia.
Qed.

(** C3: in FP8_E4M3 the input 0x7E is Normal (so not an infinity), the
    input 0x7F is NaN, and among the 256 encodings exactly 0x7F and its
    sign variant 0xFF are NaN; no encoding is an infinity. *)
Theorem C3_e4m3_no_infinity_single_nan :
  decode_and_classify (lit "FP8_E4M3") FP8_E4M3 (lit "0x7E")
  = OK (lit "Normal: sign:0, exponent:8, mantissa: 1.110")
  /\ decode_and_classify (lit "FP8_E4M3") FP8_E4M3 (lit "0x7F")
     = OK (lit "NaN")
  /\ forall n : Z, 0 <= n < 256 ->
       (e4m3_classify n = OK (lit "NaN") <-> n = 127 \/ n = 255)
       /\ e4m3_classify n <> OK (lit "+Inf")
       /\ e4m3_classify n <> OK (lit "-Inf").
Proof.
  split; [vm_compute; reflexivity|].
  split; [vm_compute; reflexivity|].
  intros n Hn.
  assert (H : e4m3_entry_ok (Z.to_nat n) = true)
    by (apply e4m3_table_entry; lia).
  unfold e4m3_entry_ok in H. cbv zeta in H.
  rewrite Z2Nat.id in H by lia.
  apply andb_true_iff in H. destruct H as [H Hneg].
  apply andb_true_iff in H. destruct H as [Hnan Hpos].
  apply eqb_prop in Hnan.
  repeat split.
  - intros E. apply is_text_iff in E. rewrite Hnan in E.
    apply orb_true_iff in E. destruct E as [E|E]; apply Nat.eqb_eq in E; lia.
  - intros E. apply is_text_iff. rewrite Hnan. apply orb_true_iff.
    destruct E as [-> | ->]; [left|right]; reflexivity.
  - intros E. apply is_text_iff in E. rewrite E in Hpos. discriminate.
  - intros E. apply is_text_iff in E. rewrite E in Hneg. discriminate.
Qed.

Lemma C3_e4m3_no_infinity_single_nan_witness :
  0 <= 255 < 256
  /\ (e4m3_classify 255 = OK (lit "NaN") <-> 255 = 127 \/ 255 = 255).
Proof.
  split; [lia|].
  apply (proj2 (proj2 C3_e4m3_no_infinity_single_nan) 255). lia.
Defined.

(** ** Rejected inputs (C8) *)

(** C8: the input 0xg1 raises the error of an invalid digit string, which
    carries the digits [g1]; the input 0z10 raises the error of a missing
    prefix; both leave the object, and so its sign, exponent and mantissa,
    as they were.  The entry handler, given these texts, changes the result
    label only. *)
Theorem C8_rejected_inputs_keep_state (st : FPExtractor) (row : Row) :
  extract_fp_str (lit "0xg1") st
  = (Raise (ValueError (lit "Invalid Hex Value: [g1]")), st)
  /\ extract_fp_str (lit "0z10") st
     = (Raise (ValueError (lit "Input must start with 0x or 0b: [0z10]")), st)
  /\ update_bits (lit "0xg1") row
     = (OK tt, mkRow (extractor row) (bit_labels row)
                 (lit "Invalid Hex Value: [g1]"))
  /\ update_bits (lit "0z10") row
     = (OK tt, mkRow (extractor row) (bit_labels row)
                 (lit "Please start with [0x] or [0b]")).
Proof. repeat split; reflexivity. Qed.

(** ** Round trip on the width (C4) *)

Lemma firstn_plus (a c : nat) (l : str) :
  firstn a l ++ firstn c (skipn a l) = firstn (a + c) l.
Proof.
  revert l. induction a as [|a IH]; intros [|x l]; simpl;
    rewrite ?firstn_nil; try reflexivity.
  now rewrite IH.
Qed.

(** In a layout whose fields follow one another from the sign bit down, the
    three fields put together are the pattern without the bits below the
    mantissa. *)
Lemma fields_concat (fmt : FPFormat) (b : str) :
  layout_ok fmt ->
  fst (exponent fmt) = width fmt - 2 ->
  fst (mantissa fmt) = snd (exponent fmt) - 1 ->
  fp_sign (fields_of fmt b) ++ fp_exponent (fields_of fmt b)
    ++ fp_mantissa (fields_of fmt b)
  = firstn (Z.to_nat (width fmt - snd (mantissa fmt))) b.
Proof.
  intros (He & He' & Hm & Hm') E1 E2. unfold fields_of, field.
  cbn [fp_sign fp_exponent fp_mantissa].
  rewrite E1, E2.
  replace (Z.to_nat (width fmt - 1 - (width fmt - 2))) with 1%nat by lia.
  rewrite app_assoc, (firstn_plus 1).
  replace (Z.to_nat (width fmt - 1 - (snd (exponent fmt) - 1)))
    with (1 + Z.to_nat (width fmt - 2 - snd (exponent fmt) + 1))%nat by lia.
  rewrite firstn_plus. f_equal. lia.
Qed.

Lemma catalog_contiguous (name : str) (fmt : FPFormat) :
  In (name, fmt) FP_CONFIG ->
  fst (exponent fmt) = width fmt - 2
  /\ fst (mantissa fmt) = snd (exponent fmt) - 1.
Proof.
  unfold FP_CONFIG. simpl. intros H.
  repeat (destruct H as [H|H]; [injection H as _ <-; simpl; lia|]).
  destruct H.
Qed.

Lemma catalog_gap (name : str) (fmt : FPFormat) :
  In (name, fmt) FP_CONFIG ->
  (name = lit "TF32" /\ snd (mantissa fmt) = 13)
  \/ (name <> lit "TF32" /\ snd (mantissa fmt) = 0).
Proof.
  unfold FP_CONFIG. simpl In. intros H.
  repeat (destruct H as [H|H];
          [injection H as <- <-;
           first [left; split; reflexivity
                 |right; split; [discriminate|reflexivity]]|]).
  destruct H.
Qed.

(** C4: for every format of the table and every [n] below [2^width], the
    extractor applied to the zero-padded binary string of [n] (the string
    [bin(n)[2:].zfill(width)], of [width] digits) returns three fields: a
    sign of one bit, an exponent and a mantissa of the widths of their
    ranges, each cut from the string at its place.  Put together in the
    order sign, exponent, mantissa, they are that string again; in TF32 the
    13 unused low bits are left out.  The string stands for [n]: read as a
    binary number it is [n]. *)
Theorem C4_round_trip_on_width (name : str) (fmt : FPFormat) (n : Z) :
  In (name, fmt) FP_CONFIG -> 0 <= n < 2 ^ width fmt ->
  let bits := to_bits (Z.to_nat (width fmt)) n in
  bits = zfill (slice_from (py_bin n) 2) (width fmt)
  /\ exists fp : Fp,
    bin_extractor bits fmt = OK fp
    /\ py_int bits 2 = OK n
    /\ fp_sign fp ++ fp_exponent fp ++ fp_mantissa fp
       = firstn (Z.to_nat (width fmt - snd (mantissa fmt))) bits
    /\ (name <> lit "TF32" ->
        fp_sign fp ++ fp_exponent fp ++ fp_mantissa fp = bits)
    /\ (name = lit "TF32" ->
        fp_sign fp ++ fp_exponent fp ++ fp_mantissa fp = firstn 19 bits)
    /\ fp = fields_of fmt bits
    /\ len (fp_sign fp) = 1
    /\ len (fp_exponent fp) = field_width (exponent fmt)
    /\ len (fp_mantissa fp) = field_width (mantissa fmt).
Proof.
  intros Hin Hn bits.
  pose proof (catalog_layout_ok _ _ Hin) as Hl.
  pose proof Hl as (He & He' & Hm & Hm').
  pose proof (layout_width_pos _ Hl) as Hw.
  destruct (catalog_contiguous _ _ Hin) as [E1 E2].
  assert (Hc : bin_str_check bits = true) by apply to_bits_check.
  assert (Hlen : len bits = width fmt)
    by (unfold bits; rewrite to_bits_len; lia).
  split; [unfold bits; symmetry; now apply to_bits_is_zfill|].
  exists (fields_of fmt bits).
  split; [now apply bin_extractor_exact|].
  split.
  { unfold bits. apply py_int_to_bits; [lia|]. now rewrite Z2Nat.id by lia. }
  rewrite (fields_concat fmt bits Hl E1 E2).
  split; [reflexivity|].
  assert (gap : (name <> lit "TF32" ->
                 firstn (Z.to_nat (width fmt - snd (mantissa fmt))) bits
                 = bits)
                /\ (name = lit "TF32" ->
                    firstn (Z.to_nat (width fmt - snd (mantissa fmt))) bits
                    = firstn 19 bits)).
  { destruct (catalog_gap _ _ Hin) as [[Hname Hg]|[Hname Hg]]; rewrite Hg.
    - split; [intros Hne; now elim Hne|]. intros _.
      assert (Hwd : width fmt = 32).
      { revert Hin. rewrite Hname. unfold FP_CONFIG. simpl In. intros Hin.
        repeat (destruct Hin as [Hin|Hin];
                [first [discriminate Hin|injection Hin as <-; reflexivity]|]).
        destruct Hin. }
      now rewrite Hwd.
    - split; [|intros Heq; now elim Hname]. intros _.
      rewrite Z.sub_0_r. apply firstn_all2. unfold len in Hlen. lia. }
  split; [apply gap|]. split; [apply gap|].
  split; [reflexivity|].
  split.
  { unfold fields_of, len in *. cbn [fp_sign]. rewrite length_firstn. lia. }
  split; apply field_length; lia || assumption.
Qed.

Lemma C4_round_trip_on_width_witness :
  exists fp : Fp,
    bin_extractor (to_bits 8 165) FP8_E5M2 = OK fp
    /\ py_int (to_bits 8 165) 2 = OK 165
    /\ fp_sign fp ++ fp_exponent fp ++ fp_mantissa fp = to_bits 8 165
    /\ fp = mkFp (lit "1") (lit "01001") (lit "01")
    /\ len (fp_sign fp) = 1
    /\ len (fp_exponent fp) = 5
    /\ len (fp_mantissa fp) = 2.
Proof.
  destruct (C4_round_trip_on_width (lit "FP8_E5M2") FP8_E5M2 165)
    as (_ & fp & H1 & H2 & _ & H4 & _ & H6 & H7 & H8 & H9).
  - simpl. tauto.
  - simpl. lia.
  - exists fp. split; [exact H1|]. split; [exact H2|].
    split; [apply H4; discriminate|].
    split; [exact H6|]. split; [exact H7|]. split; [exact H8|exact H9].
Defined.

(** ** Extraction and classification never raise on the table (C10) *)

Lemma decode_bits (name : str) (fmt : FPFormat) (b : str) :
  layout_ok fmt -> bin_str_check b = true -> len b = width fmt ->
  extract_fp_str (lit "0b" ++ b) (FPExtractor_init name fmt)
  = (OK tt, with_fields (FPExtractor_init name fmt) (fields_of fmt b)).
Proof.
  intros Hl Hc Hlen. rewrite extract_fp_str_0b by assumption.
  apply extract_bin_ok. simpl fp_fmt.
  now apply bin_extractor_exact.
Qed.

Lemma decode_and_classify_bits (name : str) (fmt : FPFormat) (b : str) :
  layout_ok fmt -> bin_str_check b = true -> len b = width fmt ->
  decode_and_classify name fmt (lit "0b" ++ b)
  = get_fp_expression
      (with_fields (FPExtractor_init name fmt) (fields_of fmt b)).
Proof.
  intros Hl Hc Hlen. unfold decode_and_classify.
  now rewrite decode_bits.
Qed.

(** C10: every exponent field of the table has its lowest bit above
    position 1, so the assertion of [extract_exponent] holds; on every
    binary string of the width of the format the extraction returns an
    exponent of [msb - lsb + 1] bits and a mantissa of [msb - lsb + 1] bits,
    and the classification of these fields returns a text: it does not
    raise. *)
Theorem C10_table_extraction_and_classification_total
    (name : str) (fmt : FPFormat) (b : str) :
  In (name, fmt) FP_CONFIG -> bin_str_check b = true -> len b = width fmt ->
  1 < snd (exponent fmt)
  /\ exists (fp : Fp) (text : str),
       bin_extractor b fmt = OK fp
       /\ extract_fp_str (lit "0b" ++ b) (FPExtractor_init name fmt)
          = (OK tt, with_fields (FPExtractor_init name fmt) fp)
       /\ len (fp_exponent fp) = field_width (exponent fmt)
       /\ len (fp_mantissa fp) = field_width (mantissa fmt)
       /\ get_fp_expression (with_fields (FPExtractor_init name fmt) fp)
          = OK text
       /\ decode_and_classify name fmt (lit "0b" ++ b) = OK text.
Proof.
  intros Hin Hc Hlen.
  pose proof (catalog_layout_ok _ _ Hin) as Hl.
  pose proof Hl as (He & He' & Hm & Hm').
  split; [lia|].
  assert (Le : len (fp_exponent (fields_of fmt b)) = field_width (exponent fmt))
    by (apply field_length; lia || assumption).
  assert (Lm : len (fp_mantissa (fields_of fmt b)) = field_width (mantissa fmt))
    by (apply field_length; lia || assumption).
  destruct (get_fp_expression_total
              (with_fields (FPExtractor_init name fmt) (fields_of fmt b))
              (fp_exponent (fields_of fmt b)) (fp_mantissa (fields_of fmt b)))
    as [text Ht]; try reflexivity.
  - apply len_pos_nonempty. rewrite Le. unfold field_width. lia.
  - apply len_pos_nonempty. rewrite Lm. unfold field_width. lia.
  - now apply field_check.
  - now apply field_check.
  - exists (fields_of fmt b), text.
    rewrite decode_and_classify_bits, Ht by assumption.
    rewrite decode_bits, bin_extractor_exact by assumption.
    repeat split; assumption || reflexivity.
Qed.

Lemma C10_table_extraction_and_classification_total_witness :
  1 < snd (exponent FP8_E5M2)
  /\ exists (fp : Fp) (text : str),
       bin_extractor (lit "11111111") FP8_E5M2 = OK fp
       /\ len (fp_exponent fp) = 5
       /\ len (fp_mantissa fp) = 2
       /\ decode_and_classify (lit "FP8_E5M2") FP8_E5M2 (lit "0b11111111")
          = OK text.
Proof.
  destruct (C10_table_extraction_and_classification_total
              (lit "FP8_E5M2") FP8_E5M2 (lit "11111111"))
    as (H0 & fp & text & H1 & _ & H3 & H4 & _ & H6).
  - simpl. tauto.
  - reflexivity.
  - reflexivity.
  - split; [exact H0|]. exists fp, text.
    split; [exact H1|]. split; [exact H3|]. split; [exact H4|exact H6].
Defined.

(** ** The largest exponent in the 32-bit format (C5) *)

(** The classification of a 32-bit pattern with sign [s], all eight
    exponent bits set and mantissa [m]. *)
Lemma fp32_max_exponent_text (s : ascii) (m : str) :
  bin_str_check (s :: lit "11111111" ++ m) = true -> len m = 23 ->
  decode_and_classify (lit "FP32") FP32 (lit "0b" ++ s :: lit "11111111" ++ m)
  = OK (if bits_value 0 m =? 0
        then (if Ascii.eqb s "0" then lit "+Inf" else lit "-Inf")
        else lit "NaN").
Proof.
  intros Hc Hlen.
  assert (Hm : bin_str_check m = true).
  { apply (bin_str_check_skipn 9) in Hc. exact Hc. }
  assert (Hne : m <> []) by (apply len_pos_nonempty; lia).
  rewrite decode_and_classify_bits.
  - unfold get_fp_expression, get_exponent_value, get_mantissa_value,
      int_of_field, with_fields, fields_of, field.
    cbn [exponent_bits mantissa_bits fp_exponent fp_mantissa fp_sign sign
         fmt_name fp_fmt FPExtractor_init].
    change (firstn (Z.to_nat (fst (exponent FP32) - snd (exponent FP32) + 1))
              (skipn (Z.to_nat (width FP32 - 1 - fst (exponent FP32)))
                 (s :: lit "11111111" ++ m)))
      with (lit "11111111").
    change (firstn (Z.to_nat (fst (mantissa FP32) - snd (mantissa FP32) + 1))
              (skipn (Z.to_nat (width FP32 - 1 - fst (mantissa FP32)))
                 (s :: lit "11111111" ++ m)))
      with (firstn 23 m).
    rewrite firstn_all2 by (unfold len in Hlen; lia).
    change (py_int (lit "11111111") 2) with (OK 255).
    rewrite (py_int_bin m Hne Hm).
    cbn [rbind OK]. unfold is_positive, field_is.
    cbn [sign firstn]. 
    change (str_eqb (lit "FP32") (lit "FP8_E4M3")) with false. cbv iota.
    change (255 - (2 ^ (fst (exponent FP32) - snd (exponent FP32) + 1 - 1) - 1)
            =? 2 ^ (fst (exponent FP32) - snd (exponent FP32) + 1 - 1) - 1 + 1)
      with true.
    cbv iota. destruct (bits_value 0 m =? 0); [|reflexivity].
    simpl str_eqb. rewrite andb_true_r. reflexivity.
  - unfold layout_ok. simpl. lia.
  - exact Hc.
  - change (s :: lit "11111111" ++ m) with ((s :: lit "11111111") ++ m).
    unfold len in *. rewrite length_app.
    change (List.length (s :: lit "11111111")) with 9%nat.
    change (width FP32) with 32. lia.
Qed.

(** C5: in the 32-bit format a pattern whose exponent field is 0xFF is
    [+Inf] or [-Inf], by its sign bit, when its mantissa field is zero, and
    [NaN] when its mantissa field is not zero. *)
Theorem C5_fp32_max_exponent (m : str) :
  bin_str_check m = true -> len m = 23 ->
  let positive := lit "0b" ++ "0"%char :: lit "11111111" ++ m in
  let negative := lit "0b" ++ "1"%char :: lit "11111111" ++ m in
  (bits_value 0 m = 0 ->
     decode_and_classify (lit "FP32") FP32 positive = OK (lit "+Inf")
     /\ decode_and_classify (lit "FP32") FP32 negative = OK (lit "-Inf"))
  /\ (bits_value 0 m <> 0 ->
        decode_and_classify (lit "FP32") FP32 positive = OK (lit "NaN")
        /\ decode_and_classify (lit "FP32") FP32 negative = OK (lit "NaN")).
Proof.
  intros Hc Hlen positive negative. unfold positive, negative.
  rewrite !fp32_max_exponent_text by (assumption || (simpl; exact Hc)).
  split; intros Hv.
  - rewrite Hv. split; reflexivity.
  - apply Z.eqb_neq in Hv. rewrite Hv. split; reflexivity.
Qed.

Lemma C5_fp32_max_exponent_witness :
  decode_and_classify (lit "FP32") FP32
    (lit "0b01111111100000000000000000000000") = OK (lit "+Inf")
  /\ decode_and_classify (lit "FP32") FP32
       (lit "0b11111111100000000000000000000000") = OK (lit "-Inf").
Proof.
  apply (C5_fp32_max_exponent (lit "00000000000000000000000")).
  - reflexivity.
  - reflexivity.
  - reflexivity.
Defined.

(** ** Subnormal values (C7) *)

Lemma py_int_zeros (k : nat) :
  (0 < k)%nat -> py_int (repeat "0"%char k) 2 = OK 0.
Proof.
  intros Hk. rewrite py_int_bin.
  - f_equal. apply bits_value_zero_iff.
    + apply bin_str_check_repeat0.
    + now rewrite repeat_length.
  - destruct k; [lia|discriminate].
  - apply bin_str_check_repeat0.
Qed.

(** C7: in every format of the table, fields with an all-zero exponent and
    a mantissa that is not zero are classified Subnormal; the text shows
    the effective exponent plus one and the mantissa after [0.].  In the
    32-bit format the pattern with only the lowest mantissa bit set gives
    exponent -126 and mantissa 0.00000000000000000000001. *)
Theorem C7_subnormal_reporting (name : str) (fmt : FPFormat)
    (s : ascii) (m : str) :
  In (name, fmt) FP_CONFIG ->
  s = "0"%char \/ s = "1"%char ->
  bin_str_check m = true -> len m = field_width (mantissa fmt) ->
  bits_value 0 m <> 0 ->
  let e := repeat "0"%char (Z.to_nat (field_width (exponent fmt))) in
  let exponent_bias := 2 ^ (field_width (exponent fmt) - 1) - 1 in
  let exponent_effective := 0 - exponent_bias in
  get_fp_expression (mkFPExtractor name fmt (Some [s]) (Some e) (Some m))
  = OK (lit "Subnormal: sign:" ++ [s]
          ++ lit ", exponent:" ++ str_of_int (exponent_effective + 1)
          ++ lit ", mantissa: 0." ++ m)
  /\ decode_and_classify (lit "FP32") FP32
       (lit "0b00000000000000000000000000000001")
     = OK (lit "Subnormal: sign:0, exponent:-126, mantissa: 0.00000000000000000000001").
Proof.
  intros Hin Hs Hc Hlen Hv e exponent_bias exponent_effective.
  split; [|vm_compute; reflexivity].
  assert (Hne : m <> []).
  { apply len_pos_nonempty. rewrite Hlen.
    pose proof (catalog_layout_ok _ _ Hin) as (_ & _ & Hm & _).
    unfold field_width. lia. }
  apply Z.eqb_neq in Hv.
  unfold get_fp_expression, get_exponent_value, get_mantissa_value,
    int_of_field.
  cbn [exponent_bits mantissa_bits fp_fmt fmt_name sign].
  rewrite (py_int_bin m Hne Hc).
  unfold e, exponent_effective, exponent_bias.
  unfold FP_CONFIG in Hin. simpl In in Hin.
  repeat (destruct Hin as [Hin|Hin];
          [injection Hin as <- <-;
           rewrite py_int_zeros by (vm_compute; lia);
           cbn [rbind OK];
           unfold get_e4m3_expression, field_width;
           cbn [exponent mantissa fst snd mantissa_bits fmt_field];
           match goal with
           | |- context [str_eqb ?a ?b] =>
               let v := eval vm_compute in (str_eqb a b) in
               change (str_eqb a b) with v
           end;
           cbv iota;
           repeat match goal with
                  | |- context [?a - ?b =? ?c] =>
                      let v := eval vm_compute in (a - b =? c) in
                      change (a - b =? c) with v; cbv iota
                  end;
           rewrite ?Hv; simpl andb; cbv iota;
           try change (0 =? 0) with true; cbv iota;
           try reflexivity|]).
  destruct Hin.
Qed.

Lemma C7_subnormal_reporting_witness :
  get_fp_expression
    (mkFPExtractor (lit "FP32") FP32 (Some (lit "0"))
       (Some (lit "00000000")) (Some (lit "00000000000000000000001")))
  = OK (lit "Subnormal: sign:0, exponent:-126, mantissa: 0.00000000000000000000001").
Proof.
  apply (C7_subnormal_reporting (lit "FP32") FP32 "0"%char
           (lit "00000000000000000000001")).
  - simpl. tauto.
  - left. reflexivity.
  - reflexivity.
  - reflexivity.
  - vm_compute. discriminate.
Defined.

(** ** Inputs longer than the width (C6) *)

Lemma lastn_check (k : nat) (d : str) :
  bin_str_check d = true -> bin_str_check (lastn k d) = true.
Proof. apply bin_str_check_skipn. Qed.

Lemma lastn_len (k : nat) (d : str) :
  (k <= List.length d)%nat -> len (lastn k d) = Z.of_nat k.
Proof. intros H. unfold lastn, len. rewrite length_skipn. lia. Qed.

(** C6: a binary digit string longer than the width is not rejected: the
    extraction decodes its last [width] digits, as if they alone had been
    given (twenty ones give in an 8-bit format what eight ones give).  A
    hexadecimal digit string is not rejected either, whatever its value:
    the pattern that is decoded has [width] bits and its value is the value
    of the digits modulo [2^width]. *)
Theorem C6_overlong_input_truncated (name : str) (fmt : FPFormat) (d : str) :
  In (name, fmt) FP_CONFIG ->
  bin_str_check d = true -> width fmt < len d ->
  let kept := lastn (Z.to_nat (width fmt)) d in
  let st := FPExtractor_init name fmt in
  bin_extractor d fmt = OK (fields_of fmt kept)
  /\ bin_extractor kept fmt = OK (fields_of fmt kept)
  /\ extract_fp_str (lit "0b" ++ d) st
     = (OK tt, with_fields st (fields_of fmt kept))
  /\ extract_fp_str (lit "0b" ++ d) st = extract_fp_str (lit "0b" ++ kept) st
  /\ (width fmt = 8 ->
      extract_fp_str (lit "0b" ++ repeat "1"%char 20) st
      = extract_fp_str (lit "0b11111111") st)
  /\ (width fmt = 8 ->
      extract_fp_str (lit "0x1ff") st = extract_fp_str (lit "0xff") st)
  /\ forall h : str, h <> [] -> hex_str_check h = true ->
       exists (v : Z) (bits : str),
         py_int h 16 = OK v
         /\ hex_str_to_bin h (width fmt) = OK bits
         /\ len bits = width fmt
         /\ py_int bits 2 = OK (v mod 2 ^ width fmt)
         /\ hex_extractor h fmt = OK (fields_of fmt bits).
Proof.
  intros Hin Hd Hlong kept st.
  pose proof (catalog_layout_ok _ _ Hin) as Hl.
  pose proof (layout_width_pos _ Hl) as Hw.
  assert (truncated : forall x : str,
             bin_str_check x = true -> width fmt <= len x ->
             bin_extractor x fmt
             = OK (fields_of fmt (lastn (Z.to_nat (width fmt)) x))
             /\ extract_fp_str (lit "0b" ++ x) st
                = (OK tt,
                   with_fields st
                     (fields_of fmt (lastn (Z.to_nat (width fmt)) x)))).
  { intros x Hx Hlx.
    assert (E : bin_extractor x fmt
                = OK (fields_of fmt (lastn (Z.to_nat (width fmt)) x))).
    { rewrite bin_extractor_fields by assumption.
      rewrite clip_long by (assumption || lia). reflexivity. }
    split; [exact E|].
    rewrite extract_fp_str_0b by assumption.
    now apply extract_bin_ok. }
  assert (Hkc : bin_str_check kept = true) by now apply lastn_check.
  assert (Hkl : len kept = width fmt).
  { unfold kept. rewrite lastn_len by (unfold len in Hlong; lia). lia. }
  destruct (truncated d Hd) as [Ed Sd]; [lia|].
  split; [exact Ed|].
  split; [now apply bin_extractor_exact|].
  split; [exact Sd|].
  split.
  { rewrite Sd. symmetry. fold kept. unfold st.
    now apply decode_bits. }
  split.
  { intros W8.
    destruct (truncated (repeat "1"%char 20)) as [_ S20];
      [reflexivity|rewrite W8; unfold len; simpl; lia|].
    destruct (truncated (lit "11111111")) as [_ S8];
      [reflexivity|rewrite W8; unfold len; simpl; lia|].
    change (lit "0b11111111") with (lit "0b" ++ lit "11111111").
    rewrite S20, S8, W8. reflexivity. }
  split.
  { intros W8. unfold st. clear - Hin W8.
    unfold FP_CONFIG in Hin. simpl In in Hin.
    repeat (destruct Hin as [Hin|Hin];
            [injection Hin as <- <-;
             first [discriminate W8|vm_compute; reflexivity]|]).
    destruct Hin. }
  intros h Hne Hh.
  destruct (py_int_hex h Hne Hh) as (v & Hv & Hpos).
  exists v, (to_bits (Z.to_nat (width fmt)) v).
  split; [exact Hv|].
  split; [apply hex_str_to_bin_bits; assumption || lia|].
  split; [rewrite to_bits_len; lia|].
  split.
  - rewrite py_int_bin.
    + now rewrite bits_value_to_bits, Z2Nat.id by lia.
    + apply len_pos_nonempty. rewrite to_bits_len. lia.
    + apply to_bits_check.
  - now apply hex_extractor_fields.
Qed.

Lemma C6_overlong_input_truncated_witness :
  bin_extractor (repeat "1"%char 20) FP8_E4M3
  = OK (mkFp (lit "1") (lit "1111") (lit "111"))
  /\ extract_fp_str (lit "0b" ++ repeat "1"%char 20)
       (FPExtractor_init (lit "FP8_E4M3") FP8_E4M3)
     = extract_fp_str (lit "0b11111111")
         (FPExtractor_init (lit "FP8_E4M3") FP8_E4M3).
Proof.
  destruct (C6_overlong_input_truncated (lit "FP8_E4M3") FP8_E4M3
              (repeat "1"%char 20))
    as (H1 & _ & _ & _ & H5 & _).
  - simpl. tauto.
  - reflexivity.
  - reflexivity.
  - split; [exact H1|]. apply H5. reflexivity.
Defined.

(** ** A prefix without digits (C2) *)

(** The fields whose bits are all zero. *)
Lemma zero_fields_value (fmt : FPFormat) :
  layout_ok fmt ->
  let zeros := repeat "0"%char (Z.to_nat (width fmt)) in
  fp_sign (fields_of fmt zeros) = lit "0"
  /\ fp_exponent (fields_of fmt zeros)
     = repeat "0"%char (Z.to_nat (field_width (exponent fmt)))
  /\ fp_mantissa (fields_of fmt zeros)
     = repeat "0"%char (Z.to_nat (field_width (mantissa fmt))).
Proof.
  intros (He & He' & Hm & Hm') zeros. unfold fields_of, field, field_width.
  cbn [fp_sign fp_exponent fp_mantissa]. unfold zeros.
  assert (cut : forall a k n : nat, (a + k <= n)%nat ->
            firstn k (skipn a (repeat "0"%char n)) = repeat "0"%char k).
  { intros a k n Hle. replace n with (a + (k + (n - a - k)))%nat by lia.
    rewrite !repeat_app, skipn_app, repeat_length, Nat.sub_diag.
    rewrite skipn_all2 by (rewrite repeat_length; lia). simpl.
    rewrite firstn_app, repeat_length, Nat.sub_diag. simpl.
    rewrite app_nil_r. apply firstn_all2. rewrite repeat_length. lia. }
  repeat split.
  - apply (cut 0%nat 1%nat). lia.
  - apply cut. lia.
  - apply cut. lia.
Qed.

(** C2, as the code has it: in every format of the table the binary prefix
    alone is decoded: the extraction succeeds and sets a sign of [0], an
    exponent of zeros and a mantissa of zeros, whose values are zero. *)
Theorem C2_bare_binary_prefix_is_zero (name : str) (fmt : FPFormat) :
  In (name, fmt) FP_CONFIG ->
  let st := FPExtractor_init name fmt in
  let zero :=
    mkFp (lit "0")
         (repeat "0"%char (Z.to_nat (field_width (exponent fmt))))
         (repeat "0"%char (Z.to_nat (field_width (mantissa fmt)))) in
  extract_fp_str (lit "0b") st = (OK tt, with_fields st zero)
  /\ get_exponent_value (with_fields st zero) = OK 0
  /\ get_mantissa_value (with_fields st zero) = OK 0.
Proof.
  intros Hin st zero.
  pose proof (catalog_layout_ok _ _ Hin) as Hl.
  pose proof Hl as (He & He' & Hm & Hm').
  destruct (zero_fields_value fmt Hl) as (Zs & Ze & Zm).
  split.
  - change (lit "0b") with (lit "0b" ++ []).
    rewrite extract_fp_str_0b by reflexivity.
    apply extract_bin_ok. simpl fp_fmt.
    rewrite bin_extractor_fields by (assumption || reflexivity).
    rewrite clip_bin by (lia || reflexivity).
    simpl List.length. rewrite Nat.sub_0_r, app_nil_r.
    unfold lastn. rewrite repeat_length, Nat.sub_diag. simpl skipn.
    unfold zero. rewrite <- Zs, <- Ze, <- Zm. reflexivity.
  - unfold get_exponent_value, get_mantissa_value, int_of_field, zero.
    cbn [with_fields exponent_bits mantissa_bits fp_exponent fp_mantissa].
    split; apply py_int_zeros; unfold field_width; lia.
Qed.

Lemma C2_bare_binary_prefix_is_zero_witness :
  extract_fp_str (lit "0b") (FPExtractor_init (lit "FP16") FP16)
  = (OK tt,
     mkFPExtractor (lit "FP16") FP16
       (Some (lit "0")) (Some (lit "00000")) (Some (lit "0000000000"))).
Proof.
  apply (C2_bare_binary_prefix_is_zero (lit "FP16") FP16).
  simpl. tauto.
Defined.

(** C2, as the claim has it, fails on the hexadecimal prefix alone: the
    empty digit string passes [hex_str_check] and [int] raises on it; no
    field is set. *)
Lemma C2_bare_hex_prefix_raises :
  extract_fp_str (lit "0x") (FPExtractor_init (lit "FP32") FP32)
  = (Raise (ValueError (lit "invalid literal for int() with base 16: ''")),
     FPExtractor_init (lit "FP32") FP32)
  /\ ~ (exists st' : FPExtractor,
          extract_fp_str (lit "0x") (FPExtractor_init (lit "FP32") FP32)
          = (OK tt, st')).
Proof.
  split; [vm_compute; reflexivity|].
  intros [st' H]. vm_compute in H. discriminate H.
Qed.

(** ** Underscores (C9) *)

Lemma lstrip_id (s : str) :
  forallb (fun c => negb (isspace c)) s = true -> lstrip s = s.
Proof.
  destruct s as [|c s]; [reflexivity|]. simpl. intros H.
  apply andb_true_iff in H. destruct H as [H _].
  now destruct (isspace c).
Qed.

Lemma forallb_rev_true {A : Type} (f : A -> bool) (l : list A) :
  forallb f l = true -> forallb f (rev l) = true.
Proof.
  rewrite !forallb_forall. intros H x Hx. apply H. now apply in_rev.
Qed.

Lemma strip_id (s : str) :
  forallb (fun c => negb (isspace c)) s = true -> strip s = s.
Proof.
  intros H. unfold strip. rewrite (lstrip_id s H).
  rewrite lstrip_id by now apply forallb_rev_true.
  apply rev_involutive.
Qed.

Lemma remove_char_keeps {A : Type} (f g : A -> bool) (l : list A) :
  forallb f l = true -> forallb f (filter g l) = true.
Proof.
  rewrite !forallb_forall. intros H x Hx. apply H.
  now apply filter_In in Hx.
Qed.

Lemma remove_char_idem (c : ascii) (s : str) :
  remove_char c (remove_char c s) = remove_char c s.
Proof.
  unfold remove_char. induction s as [|a s IH]; [reflexivity|]. simpl.
  destruct (negb (Ascii.eqb a c)) eqn:E; simpl; rewrite ?E, IH; reflexivity.
Qed.

Lemma remove_char_absent (c : ascii) (s : str) : ~ In c (remove_char c s).
Proof.
  unfold remove_char. intros H. apply filter_In in H.
  destruct H as [_ H]. now rewrite Ascii.eqb_refl in H.
Qed.

Lemma lower_char_underscore (c : ascii) :
  lower_char c = "_"%char -> c = "_"%char.
Proof.
  destruct c as [b0 b1 b2 b3 b4 b5 b6 b7].
  destruct b0, b1, b2, b3, b4, b5, b6, b7; intros H;
    vm_compute in H; try discriminate H; reflexivity.
Qed.

Lemma lower_no_underscore (s : str) :
  ~ In "_"%char s -> ~ In "_"%char (lower s).
Proof.
  intros H Hin. unfold lower in Hin. apply in_map_iff in Hin.
  destruct Hin as (c & Hc & Hin). apply lower_char_underscore in Hc.
  subst c. contradiction.
Qed.

(** C9, as the code has it: the entry handler of the window removes the
    underscores, after it has stripped the blanks around the text and
    before it checks the prefix and calls the extraction, so the text it
    hands to the extraction has no underscore.  For a text without blanks
    the handler does with the text what it does with the text without its
    underscores; so it shows for 0x1_2 what it shows for 0x12, a
    classification and not an error. *)
Theorem C9_handler_removes_underscores (raw : str) (row : Row) :
  forallb (fun c => negb (isspace c)) raw = true ->
  update_bits raw row = update_bits (remove_char "_" raw) row
  /\ ~ In "_"%char (lower (remove_char "_" (strip raw)))
  /\ update_bits (lit "0x1_2") row = update_bits (lit "0x12") row
  /\ result_label
       (snd (update_bits (lit "0x1_2") (Row_init (lit "FP8_E4M3") FP8_E4M3)))
     = lit "Normal: sign:0, exponent:-5, mantissa: 1.010".
Proof.
  intros H.
  split; [|split; [apply lower_no_underscore, remove_char_absent|split]].
  - unfold update_bits.
    rewrite (strip_id raw H).
    rewrite (strip_id (remove_char "_" raw)) by now apply remove_char_keeps.
    rewrite remove_char_idem. reflexivity.
  - reflexivity.
  - vm_compute. reflexivity.
Qed.

Lemma C9_handler_removes_underscores_witness :
  update_bits (lit "0b1111_0000") (Row_init (lit "FP8_E5M2") FP8_E5M2)
  = update_bits (lit "0b11110000") (Row_init (lit "FP8_E5M2") FP8_E5M2).
Proof.
  assert (H : forallb (fun c => negb (isspace c)) (lit "0b1111_0000") = true)
    by reflexivity.
  exact (proj1 (C9_handler_removes_underscores (lit "0b1111_0000")
                  (Row_init (lit "FP8_E5M2") FP8_E5M2) H)).
Defined.

(** C9, as the claim has it, fails: the extraction itself keeps the
    underscores, and 0x1_2 given to it is rejected as an invalid digit
    string while 0x12 is decoded. *)
Lemma C9_extraction_keeps_underscores :
  extract_fp_str (lit "0x1_2") (FPExtractor_init (lit "FP32") FP32)
  = (Raise (ValueError (lit "Invalid Hex Value: [1_2]")),
     FPExtractor_init (lit "FP32") FP32)
  /\ fst (extract_fp_str (lit "0x12") (FPExtractor_init (lit "FP32") FP32))
     = OK tt.
Proof. split; vm_compute; reflexivity. Qed.

(** ** Decoding depends on the value of the digits only *)

Lemma to_bits_mod (w : nat) (n : Z) :
  to_bits w (n mod 2 ^ Z.of_nat w) = to_bits w n.
Proof.
  revert n. induction w as [|w IH]; intros n; [reflexivity|].
  cbn [to_bits]. rewrite Nat2Z.inj_succ, Z.pow_succ_r by lia.
  rewrite Z.rem_mul_r by lia.
  assert (Hb : 0 <= n mod 2 < 2) by (apply Z.mod_pos_bound; lia).
  replace (Z.div2 (n mod 2 + 2 * ((n / 2) mod 2 ^ Z.of_nat w)))
    with ((Z.div2 n) mod 2 ^ Z.of_nat w).
  - rewrite IH. f_equal.
    rewrite Z.odd_add_mul_2, <- Z.bit0_odd, <- (Z.bit0_odd n).
    rewrite <- Z.bit0_mod.
    now destruct (Z.testbit n 0).
  - rewrite !Z.div2_div.
    apply Z.div_unique with (r := n mod 2); lia.
Qed.

Lemma to_bits_congr (w : nat) (a b : Z) :
  a mod 2 ^ Z.of_nat w = b mod 2 ^ Z.of_nat w -> to_bits w a = to_bits w b.
Proof. intros H. now rewrite <- (to_bits_mod w a), H, to_bits_mod. Qed.

Lemma to_bits_snoc_value (w : nat) (v : Z) (c : ascii) :
  c = "0"%char \/ c = "1"%char ->
  to_bits (S w) (2 * v + (if Ascii.eqb c "1" then 1 else 0))
  = to_bits w v ++ [c].
Proof.
  intros Hc. cbn [to_bits]. f_equal.
  - f_equal. rewrite Z.div2_div.
    destruct Hc as [-> | ->]; simpl Ascii.eqb; cbv iota;
      symmetry; [apply Z.div_unique with (r := 0)
                |apply Z.div_unique with (r := 1)]; lia.
  - destruct Hc as [-> | ->]; simpl Ascii.eqb; cbv iota.
    + now rewrite Z.add_0_r, Z.odd_mul, andb_false_l.
    + rewrite Z.add_comm, Z.odd_add_mul_2. reflexivity.
Qed.

(** What the extractors keep of a string of binary digits is the pattern
    of the [w] low bits of its value. *)
Lemma clip_value (s : str) (w : Z) :
  0 <= w -> bin_str_check s = true ->
  clip s w = to_bits (Z.to_nat w) (bits_value 0 s).
Proof.
  intros Hw Hs. rewrite clip_bin by assumption.
  generalize (Z.to_nat w) as k. clear w Hw. intros k.
  revert s Hs. induction k as [|k IH]; intros s Hs.
  - unfold lastn. simpl. now rewrite Nat.sub_0_r, skipn_all.
  - destruct (rev s) as [|c r] eqn:E.
    + apply (f_equal (@rev ascii)) in E. rewrite rev_involutive in E.
      subst s. simpl List.length. rewrite pad_lastn_nil.
      now rewrite to_bits_zero.
    + apply (f_equal (@rev ascii)) in E. rewrite rev_involutive in E.
      simpl in E. subst s.
      rewrite bin_str_check_app in Hs. apply andb_true_iff in Hs.
      destruct Hs as [Hr Hc].
      apply bin_str_check_cons in Hc. destruct Hc as [Hc _].
      rewrite pad_lastn_snoc, bits_value_snoc, (IH _ Hr).
      symmetry. now apply to_bits_snoc_value.
Qed.

Lemma bin_extractor_clip (fmt : FPFormat) (d d' : str) :
  bin_str_check d = true -> bin_str_check d' = true ->
  clip d (width fmt) = clip d' (width fmt) ->
  bin_extractor d fmt = bin_extractor d' fmt.
Proof.
  intros Hd Hd' E. unfold bin_extractor. rewrite Hd, Hd'. simpl negb.
  cbv iota. fold (clip d (width fmt)). fold (clip d' (width fmt)).
  now rewrite E.
Qed.

Lemma bits_value_zeros_app (k : nat) (d : str) :
  bits_value 0 (repeat "0"%char k ++ d) = bits_value 0 d.
Proof. induction k as [|k IH]; [reflexivity|exact IH]. Qed.

(** Two strings of binary digits whose values agree modulo [2^width] are
    decoded alike, in every layout; so zeros in front of the digits change
    nothing. *)
Theorem bin_extractor_value_congruent (fmt : FPFormat) (d d' : str) :
  0 <= width fmt ->
  bin_str_check d = true -> bin_str_check d' = true ->
  bits_value 0 d mod 2 ^ width fmt = bits_value 0 d' mod 2 ^ width fmt ->
  bin_extractor d fmt = bin_extractor d' fmt
  /\ forall k : nat,
       bin_extractor (repeat "0"%char k ++ d) fmt = bin_extractor d fmt.
Proof.
  intros Hw Hd Hd' Hv. split.
  - apply bin_extractor_clip; try assumption.
    rewrite !clip_value by assumption.
    apply to_bits_congr. now rewrite Z2Nat.id by lia.
  - intros k. apply bin_extractor_clip; try assumption.
    + now rewrite bin_str_check_app, bin_str_check_repeat0.
    + rewrite !clip_value; try assumption.
      * now rewrite bits_value_zeros_app.
      * now rewrite bin_str_check_app, bin_str_check_repeat0.
Qed.

Lemma bin_extractor_value_congruent_witness :
  bin_extractor (lit "100000101") FP8_E5M2 = bin_extractor (lit "101") FP8_E5M2.
Proof.
  apply (bin_extractor_value_congruent FP8_E5M2 (lit "100000101") (lit "101")).
  - simpl. lia.
  - reflexivity.
  - reflexivity.
  - reflexivity.
Defined.

(** A hexadecimal digit string and a binary digit string whose values agree
    modulo [2^width] are decoded alike, in every layout. *)
Theorem hex_extractor_agrees_with_bin (fmt : FPFormat) (h d : str) (v : Z) :
  0 <= width fmt ->
  hex_str_check h = true -> py_int h 16 = OK v -> 0 <= v ->
  bin_str_check d = true ->
  bits_value 0 d mod 2 ^ width fmt = v mod 2 ^ width fmt ->
  hex_extractor h fmt = bin_extractor d fmt.
Proof.
  intros Hw Hh Hv Hpos Hd E.
  unfold hex_extractor, bin_extractor. rewrite Hh, Hd. simpl negb.
  cbv iota. fold (clip d (width fmt)).
  rewrite (hex_str_to_bin_bits h (width fmt) v) by assumption.
  rewrite clip_value by assumption. simpl rbind.
  rewrite (to_bits_congr _ (bits_value 0 d) v)
    by now rewrite Z2Nat.id by lia.
  reflexivity.
Qed.

Lemma hex_extractor_agrees_with_bin_witness :
  hex_extractor (lit "17E") FP8_E4M3 = bin_extractor (lit "1111110") FP8_E4M3.
Proof.
  apply (hex_extractor_agrees_with_bin FP8_E4M3 (lit "17E") (lit "1111110") 382).
  - simpl. lia.
  - reflexivity.
  - reflexivity.
  - lia.
  - reflexivity.
  - reflexivity.
Defined.

(** ** The fields are bit ranges of the number *)

Lemma to_bits_app (a b : nat) (n : Z) :
  to_bits (a + b) n = to_bits a (n / 2 ^ Z.of_nat b) ++ to_bits b n.
Proof.
  revert n. induction b as [|b IH]; intros n.
  - rewrite Nat.add_0_r. simpl. now rewrite Z.div_1_r, app_nil_r.
  - replace (a + S b)%nat with (S (a + b)) by lia. cbn [to_bits].
    rewrite IH, app_assoc. do 3 f_equal.
    rewrite Z.div2_div, Nat2Z.inj_succ, Z.pow_succ_r by lia.
    rewrite Z.div_div by lia. reflexivity.
Qed.

Lemma to_bits_middle (j k l : nat) (n : Z) :
  firstn k (skipn j (to_bits (j + (k + l)) n))
  = to_bits k (n / 2 ^ Z.of_nat l).
Proof.
  rewrite to_bits_app, skipn_app, to_bits_length, Nat.sub_diag.
  rewrite skipn_all2 by (rewrite to_bits_length; lia). simpl.
  rewrite to_bits_app, firstn_app, to_bits_length, Nat.sub_diag.
  rewrite firstn_all2 by (rewrite to_bits_length; lia). simpl.
  now rewrite app_nil_r.
Qed.

(** The field [msb .. lsb] of the pattern of [n] is the pattern of
    [n / 2^lsb], on the width of the field. *)
Lemma field_to_bits (w : nat) (msb lsb n : Z) :
  0 <= lsb <= msb -> msb < Z.of_nat w ->
  field (Z.of_nat w) msb lsb (to_bits w n)
  = to_bits (Z.to_nat (msb - lsb + 1)) (n / 2 ^ lsb).
Proof.
  intros H1 H2. unfold field.
  replace (to_bits w n)
    with (to_bits (Z.to_nat (Z.of_nat w - 1 - msb)
                   + (Z.to_nat (msb - lsb + 1) + Z.to_nat lsb)) n)
    by (f_equal; lia).
  rewrite to_bits_middle, Z2Nat.id by lia. reflexivity.
Qed.

Lemma to_bits_nonempty (w : nat) (n : Z) : (0 < w)%nat -> to_bits w n <> [].
Proof.
  intros Hw E. apply (f_equal (@List.length ascii)) in E.
  rewrite to_bits_length in E. simpl in E. lia.
Qed.

Lemma py_int_to_bits_mod (w : nat) (n : Z) :
  (0 < w)%nat -> py_int (to_bits w n) 2 = OK (n mod 2 ^ Z.of_nat w).
Proof.
  intros Hw. rewrite py_int_bin.
  - now rewrite bits_value_to_bits.
  - now apply to_bits_nonempty.
  - apply to_bits_check.
Qed.

(** After the extraction of the pattern of a number [n], in any layout
    whose slices stay inside the pattern, the exponent that the classifier
    reads is [n / 2^lsb] modulo [2^width] of the exponent field, the
    mantissa likewise, and the sign is the bit [width - 1] of [n]. *)
Theorem extracted_fields_are_bit_ranges
    (name : str) (fmt : FPFormat) (n : Z) :
  layout_ok fmt ->
  let st := FPExtractor_init name fmt in
  let st' :=
    snd (extract_fp_str (lit "0b" ++ to_bits (Z.to_nat (width fmt)) n) st) in
  get_exponent_value st'
  = OK ((n / 2 ^ snd (exponent fmt)) mod 2 ^ field_width (exponent fmt))
  /\ get_mantissa_value st'
     = OK ((n / 2 ^ snd (mantissa fmt)) mod 2 ^ field_width (mantissa fmt))
  /\ sign st'
     = Some [if Z.odd (n / 2 ^ (width fmt - 1)) then "1"%char else "0"%char].
Proof.
  intros Hl st st'. pose proof Hl as (He & He' & Hm & Hm').
  unfold st', st. rewrite decode_bits;
    [|assumption|apply to_bits_check|rewrite to_bits_len; lia].
  unfold get_exponent_value, get_mantissa_value, int_of_field, fields_of.
  cbn [snd with_fields exponent_bits mantissa_bits sign
       fp_sign fp_exponent fp_mantissa].
  replace (width fmt) with (Z.of_nat (Z.to_nat (width fmt))) at 1 3 by lia.
  rewrite !field_to_bits by lia.
  rewrite !py_int_to_bits_mod by lia.
  unfold field_width. rewrite !Z2Nat.id by lia.
  repeat split.
  pose proof (field_to_bits (Z.to_nat (width fmt)) (width fmt - 1)
                (width fmt - 1) n) as F.
  unfold field in F. rewrite Z2Nat.id in F by lia.
  replace (Z.to_nat (width fmt - 1 - (width fmt - 1) + 1)) with 1%nat in F
    by lia.
  replace (Z.to_nat (width fmt - 1 - (width fmt - 1))) with 0%nat in F by lia.
  simpl skipn in F. rewrite F by lia. reflexivity.
Qed.

Lemma extracted_fields_are_bit_ranges_witness :
  get_exponent_value
    (snd (extract_fp_str (lit "0b" ++ to_bits 16 15872)
            (FPExtractor_init (lit "FP16") FP16)))
  = OK 15.
Proof.
  assert (H : layout_ok FP16) by (unfold layout_ok; simpl; lia).
  exact (proj1 (extracted_fields_are_bit_ranges (lit "FP16") FP16 15872 H)).
Defined.

(** ** What the extraction accepts, and what it changes *)

(** The extraction either raises and leaves the object as it was, or
    returns and sets the three fields to what one of the extractors
    returned; the name and the layout of the object never change.  This
    holds for every input and every layout. *)
Theorem extract_fp_str_atomic (s : str) (st : FPExtractor) :
  match extract_fp_str s st with
  | (inl _, st') => st' = st
  | (inr _, st') =>
      fmt_name st' = fmt_name st /\ fp_fmt st' = fp_fmt st
      /\ exists fp : Fp,
           st' = with_fields st fp
           /\ (hex_extractor (slice_from (lower s) 2) (fp_fmt st) = OK fp
               \/ bin_extractor (slice_from (lower s) 2) (fp_fmt st) = OK fp)
  end.
Proof.
  unfold extract_fp_str.
  destruct (startswith (lower s) (lit "0x")).
  - destruct (hex_extractor (slice_from (lower s) 2) (fp_fmt st))
      as [e|fp] eqn:E.
    + now rewrite (extract_hex_raise _ _ _ E).
    + rewrite (extract_hex_ok _ _ _ E).
      split; [reflexivity|]. split; [reflexivity|]. exists fp. auto.
  - destruct (startswith (lower s) (lit "0b")).
    + destruct (bin_extractor (slice_from (lower s) 2) (fp_fmt st))
        as [e|fp] eqn:E.
      * now rewrite (extract_bin_raise _ _ _ E).
      * rewrite (extract_bin_ok _ _ _ E).
        split; [reflexivity|]. split; [reflexivity|]. exists fp. auto.
    + reflexivity.
Qed.

Lemma hex_extractor_empty (fmt : FPFormat) :
  hex_extractor [] fmt
  = Raise (ValueError (lit "invalid literal for int() with base 16: ''")).
Proof. reflexivity. Qed.

Lemma extract_fp_str_rejects (s : str) (st : FPExtractor) :
  well_formed_input s = false ->
  exists msg : str, extract_fp_str s st = (Raise (ValueError msg), st).
Proof.
  unfold well_formed_input, extract_fp_str.
  destruct (startswith (lower s) (lit "0x")).
  - destruct (slice_from (lower s) 2) as [|c h] eqn:E.
    + intros _. eexists. apply extract_hex_raise, hex_extractor_empty.
    + intros Hc. eexists. apply extract_hex_raise.
      unfold hex_extractor. rewrite Hc. reflexivity.
  - destruct (startswith (lower s) (lit "0b")).
    + intros Hc. eexists. apply extract_bin_raise.
      unfold bin_extractor. rewrite Hc. reflexivity.
    + intros _. eexists. reflexivity.
Qed.

(** In the model, a layout whose slices stay inside the pattern lets the
    extraction return on the well-formed inputs. *)
Lemma extract_fp_str_well_formed (s : str) (st : FPExtractor) :
  layout_ok (fp_fmt st) ->
  well_formed_input s = true ->
  exists fp : Fp, extract_fp_str s st = (OK tt, with_fields st fp).
Proof.
  intros Hl. unfold well_formed_input, extract_fp_str.
  destruct (startswith (lower s) (lit "0x")).
  - destruct (slice_from (lower s) 2) as [|c h] eqn:E; [discriminate|].
    intros Hc.
    destruct (py_int_hex (c :: h)) as (v & Hv & Hpos);
      [discriminate|assumption|].
    eexists. apply extract_hex_ok.
    now apply (hex_extractor_fields _ _ v).
  - destruct (startswith (lower s) (lit "0b")); [|discriminate].
    intros Hc. eexists. apply extract_bin_ok.
    now apply bin_extractor_fields.
Qed.

(** ** Layouts that the extractors refuse *)

(** When the exponent field of a layout of 64 bits or fewer reaches down
    to bit 1 or bit 0, both extractors raise [AssertionError] on every
    valid digit string: the assertion of [extract_exponent] asks for a
    lowest bit above 1. *)
Theorem exponent_at_bit_one_refused (fmt : FPFormat) (d h : str) :
  0 < width fmt <= 64 -> snd (exponent fmt) <= 1 ->
  bin_str_check d = true ->
  hex_str_check h = true -> h <> [] ->
  bin_extractor d fmt
  = Raise (AssertionError (lit "Invalid Exponent Index"))
  /\ hex_extractor h fmt
     = Raise (AssertionError (lit "Invalid Exponent Index")).
Proof.
  intros [Hw _] He Hd Hh Hne.
  assert (refused : forall b : str, len b = width fmt ->
            (_ <~ py_assert (len (reversed b) =? width fmt)
                            (lit "Invalid binary string length") ;;
             s <~ extract_sign (reversed b) fmt ;;
             e <~ extract_exponent (reversed b) fmt ;;
             m <~ extract_mantissa (reversed b) fmt ;;
             OK (mkFp s e m))
            = Raise (AssertionError (lit "Invalid Exponent Index"))).
  { intros b Hb. unfold reversed.
    rewrite len_rev, Hb, Z.eqb_refl. simpl.
    rewrite extract_sign_rev by assumption. simpl.
    unfold extract_exponent, py_assert.
    destruct (Z.ltb_spec 1 (snd (exponent fmt))); [lia|reflexivity]. }
  split.
  - unfold bin_extractor. rewrite Hd. simpl negb. cbv iota.
    fold (clip d (width fmt)). apply refused.
    apply clip_length; [lia|assumption].
  - destruct (py_int_hex h Hne Hh) as (v & Hv & Hpos).
    unfold hex_extractor. rewrite Hh. simpl negb. cbv iota.
    rewrite (hex_str_to_bin_bits h (width fmt) v) by (assumption || lia).
    simpl rbind. apply refused. rewrite to_bits_len. lia.
Qed.

Lemma exponent_at_bit_one_refused_witness :
  bin_extractor (lit "10101010") (mkFPFormat 8 (6, 1) (0, 0))
  = Raise (AssertionError (lit "Invalid Exponent Index")).
Proof.
  apply (exponent_at_bit_one_refused (mkFPFormat 8 (6, 1) (0, 0))
           (lit "10101010") (lit "aa")).
  - simpl. lia.
  - simpl. lia.
  - reflexivity.
  - reflexivity.
  - discriminate.
Defined.

(** ** The classes of the classifier *)

Ltac compute_pows :=
  repeat match goal with
         | |- context [2 ^ ?k] =>
             let v := eval vm_compute in (2 ^ k) in
             progress change (2 ^ k) with v
         | H : context [2 ^ ?k] |- _ =>
             let v := eval vm_compute in (2 ^ k) in
             progress change (2 ^ k) with v in H
         end.

Ltac table_cases Hin :=
  unfold FP_CONFIG in Hin; simpl In in Hin;
  repeat (destruct Hin as [Hin|Hin]; [injection Hin as <- <-|]);
  [ .. | destruct Hin].

(** In every format of the table but FP8_E4M3, fields with all exponent
    bits set are an infinity when the mantissa is zero, positive when the
    sign is [0] and negative otherwise, and NaN when the mantissa is not
    zero. *)
Theorem max_exponent_standard (name : str) (fmt : FPFormat) (s m : str) :
  In (name, fmt) FP_CONFIG -> name <> lit "FP8_E4M3" ->
  bin_str_check m = true -> m <> [] ->
  let e := repeat "1"%char (Z.to_nat (field_width (exponent fmt))) in
  get_fp_expression (mkFPExtractor name fmt (Some s) (Some e) (Some m))
  = OK (if bits_value 0 m =? 0
        then (if str_eqb s (lit "0") then lit "+Inf" else lit "-Inf")
        else lit "NaN").
Proof.
  intros Hin Hn Hc Hne e. unfold e.
  unfold get_fp_expression, get_exponent_value, get_mantissa_value,
    int_of_field, is_positive, field_is.
  cbn [exponent_bits mantissa_bits fp_fmt fmt_name sign].
  rewrite (py_int_bin m Hne Hc).
  table_cases Hin;
    try (exfalso; apply Hn; reflexivity);
    match goal with
    | |- context [py_int ?x 2] =>
        let v := eval vm_compute in (py_int x 2) in
        change (py_int x 2) with v
    end;
    cbn [rbind OK];
    match goal with
    | |- context [str_eqb ?a (lit "FP8_E4M3")] =>
        change (str_eqb a (lit "FP8_E4M3")) with false
    end;
    cbv iota;
    match goal with
    | |- context [?a - ?b =? ?c] =>
        let v := eval vm_compute in (a - b =? c) in
        change (a - b =? c) with v
    end;
    cbv iota; destruct (bits_value 0 m =? 0); reflexivity.
Qed.

Lemma max_exponent_standard_witness :
  get_fp_expression
    (mkFPExtractor (lit "BF16") BF16 (Some (lit "1"))
       (Some (lit "11111111")) (Some (lit "0000000")))
  = OK (lit "-Inf").
Proof.
  apply (max_exponent_standard (lit "BF16") BF16 (lit "1") (lit "0000000")).
  - simpl. tauto.
  - discriminate.
  - reflexivity.
  - discriminate.
Defined.

(** In every format of the table, fields whose exponent is neither all
    zeros nor all ones are Normal: the text shows the exponent value minus
    the bias, and the mantissa after [1.].  In FP8_E4M3 the exponent of all
    ones is Normal too, with exponent 8, unless the mantissa is 7. *)
Theorem normal_reporting (name : str) (fmt : FPFormat) (s e m : str) :
  In (name, fmt) FP_CONFIG ->
  bin_str_check e = true -> bin_str_check m = true -> m <> [] ->
  0 < bits_value 0 e < 2 ^ field_width (exponent fmt) - 1 ->
  let exponent_bias := 2 ^ (field_width (exponent fmt) - 1) - 1 in
  get_fp_expression (mkFPExtractor name fmt (Some s) (Some e) (Some m))
  = OK (lit "Normal: sign:" ++ s
          ++ lit ", exponent:" ++ str_of_int (bits_value 0 e - exponent_bias)
          ++ lit ", mantissa: 1." ++ m)
  /\ (bits_value 0 m <> 7 ->
      get_fp_expression
        (mkFPExtractor (lit "FP8_E4M3") FP8_E4M3
           (Some s) (Some (lit "1111")) (Some m))
      = OK (lit "Normal: sign:" ++ s
              ++ lit ", exponent:8, mantissa: 1." ++ m)).
Proof.
  intros Hin He Hm Hne Hv exponent_bias. unfold exponent_bias.
  assert (Hnee : e <> []) by (intros ->; simpl in Hv; lia).
  split.
  - unfold get_fp_expression, get_exponent_value, get_mantissa_value,
      int_of_field, get_e4m3_expression.
    cbn [exponent_bits mantissa_bits fp_fmt fmt_name sign fmt_field].
    rewrite (py_int_bin e Hnee He), (py_int_bin m Hne Hm).
    cbn [rbind OK]. unfold field_width in *.
    table_cases Hin;
      cbn [exponent fst snd] in *; compute_pows;
      match goal with
      | |- context [str_eqb ?a (lit "FP8_E4M3")] =>
          let v := eval vm_compute in (str_eqb a (lit "FP8_E4M3")) in
          change (str_eqb a (lit "FP8_E4M3")) with v
      end;
      cbv iota;
      repeat match goal with
             | |- context [?a =? ?b] =>
                 destruct (Z.eqb_spec a b); try lia
             end;
      reflexivity.
  - intros H7.
    unfold get_fp_expression, get_exponent_value, get_mantissa_value,
      int_of_field, get_e4m3_expression.
    cbn [exponent_bits mantissa_bits fp_fmt fmt_name sign fmt_field].
    rewrite (py_int_bin m Hne Hm).
    change (py_int (lit "1111") 2) with (OK 15).
    cbn [rbind OK].
    change (str_eqb (lit "FP8_E4M3") (lit "FP8_E4M3")) with true.
    cbv iota.
    destruct (Z.eqb_spec (bits_value 0 m) 7); [contradiction|].
    reflexivity.
Qed.

Lemma normal_reporting_witness :
  get_fp_expression
    (mkFPExtractor (lit "FP16") FP16 (Some (lit "0"))
       (Some (lit "10001")) (Some (lit "1000000000")))
  = OK (lit "Normal: sign:0, exponent:2, mantissa: 1.1000000000").
Proof.
  assert (Hin : In (lit "FP16", FP16) FP_CONFIG) by (simpl; tauto).
  assert (Hv : 0 < bits_value 0 (lit "10001") < 2 ^ field_width (exponent FP16) - 1)
    by (vm_compute; split; reflexivity).
  assert (Hne : lit "1000000000" <> []) by discriminate.
  exact (proj1 (normal_reporting (lit "FP16") FP16 (lit "0") (lit "10001")
                  (lit "1000000000") Hin eq_refl eq_refl Hne Hv)).
Defined.

Lemma zero_patterns_standard_witness :
  decode_and_classify (lit "TF32") TF32
    (lit "0b" ++ repeat "0"%char 32) = OK (lit "+Zero")
  /\ decode_and_classify (lit "TF32") TF32
       (lit "0b" ++ "1"%char :: repeat "0"%char 31) = OK (lit "-Zero").
Proof.
  apply (zero_patterns_standard (lit "TF32") TF32).
  - simpl. tauto.
  - discriminate.
Defined.

(** ** The entry handler *)

Lemma lower_char_idem (c : ascii) : lower_char (lower_char c) = lower_char c.
Proof.
  destruct c as [b0 b1 b2 b3 b4 b5 b6 b7].
  destruct b0, b1, b2, b3, b4, b5, b6, b7; vm_compute; reflexivity.
Qed.

Lemma lower_idem (s : str) : lower (lower s) = lower s.
Proof.
  unfold lower. rewrite map_map. apply map_ext. intros c.
  apply lower_char_idem.
Qed.

Lemma startswith_two (t : str) (a b : ascii) :
  startswith t [a; b] = true -> exists r : str, t = a :: b :: r.
Proof.
  destruct t as [|x [|y r]]; simpl; try discriminate.
  - rewrite andb_false_r. discriminate.
  - intros H. apply andb_true_iff in H. destruct H as [Ha H].
    apply andb_true_iff in H. destruct H as [Hb _].
    apply Ascii.eqb_eq in Ha. apply Ascii.eqb_eq in Hb. subst.
    now exists r.
Qed.

Lemma index_app_here (q r : str) (c : ascii) :
  index (q ++ c :: r) (len q) = OK [c].
Proof.
  unfold index. pose proof (len_nonneg q) as Hq.
  destruct (Z.ltb_spec (len q) 0); [lia|].
  assert (Hlt : len q < len (q ++ c :: r))
    by (unfold len; rewrite length_app; simpl; lia).
  destruct (Z.leb_spec 0 (len q)); [|lia].
  destruct (Z.ltb_spec (len q) (len (q ++ c :: r))); [|lia].
  simpl. unfold len. rewrite Nat2Z.id, skipn_app, skipn_all, Nat.sub_diag.
  reflexivity.
Qed.

(** When there are no more labels than characters, every label takes its
    character. *)
Lemma update_bit_labels_from_ok (labels : list str) (q r : str) :
  (List.length labels <= List.length r)%nat ->
  update_bit_labels_from (len q) labels (q ++ r)
  = (OK tt, map (fun c => [c]) (firstn (List.length labels) r)).
Proof.
  revert q r. induction labels as [|l labels IH]; intros q r Hle.
  - reflexivity.
  - destruct r as [|c r]; [simpl in Hle; lia|].
    cbn [update_bit_labels_from]. rewrite index_app_here.
    unfold OK at 1.
    replace (len q + 1) with (len (q ++ [c]))
      by (unfold len; rewrite length_app; simpl; lia).
    replace (q ++ c :: r) with ((q ++ [c]) ++ r)
      by now rewrite <- app_assoc.
    rewrite IH by (simpl in Hle; lia). reflexivity.
Qed.

Lemma update_bit_labels_all (row : Row) (p : str) :
  List.length (bit_labels row) = List.length p ->
  update_bit_labels p row
  = (OK tt, mkRow (extractor row) (map (fun c => [c]) p) (result_label row)).
Proof.
  intros H. unfold update_bit_labels.
  pose proof (update_bit_labels_from_ok (bit_labels row) [] p) as F.
  simpl in F. change (len []) with 0 in F. rewrite F by lia.
  rewrite H, firstn_all. reflexivity.
Qed.

(** A text that is not a well-formed input of more than two characters
    changes the result label only. *)
Lemma update_bits_rejected (raw : str) (row : Row) :
  let t := lower (remove_char "_" (strip raw)) in
  well_formed_input t && (2 <? len t) = false ->
  exists msg : str,
    update_bits raw row
    = (OK tt, mkRow (extractor row) (bit_labels row) msg).
Proof.
  intros t Hbad. unfold update_bits. fold t.
  destruct ((2 <? len t)
            && (startswith t (lit "0x") || startswith t (lit "0b"))) eqn:G.
  - apply andb_true_iff in G. destruct G as [G _].
    rewrite G, andb_true_r in Hbad.
    destruct (extract_fp_str_rejects t (extractor row) Hbad) as [msg E].
    exists msg.
    unfold bind, try_except_ValueError, on_extractor, set_result_label,
      modify, ret.
    rewrite E. reflexivity.
  - eexists. reflexivity.
Qed.

(** A well-formed input of more than two characters, in a row of a layout
    whose slices stay inside the pattern: the extractor takes the fields of
    a pattern, the labels show that pattern and the result label shows the
    class of the fields. *)
Lemma update_bits_accepted (raw : str) (row : Row) :
  layout_ok (fp_fmt (extractor row)) ->
  List.length (bit_labels row)
  = Z.to_nat (width (fp_fmt (extractor row))) ->
  let t := lower (remove_char "_" (strip raw)) in
  let ext := extractor row in
  well_formed_input t = true -> 2 < len t ->
  exists (p text : str),
    bin_str_check p = true /\ len p = width (fp_fmt ext)
    /\ extract_fp_str t ext = (OK tt, with_fields ext (fields_of (fp_fmt ext) p))
    /\ get_fp_expression (with_fields ext (fields_of (fp_fmt ext) p)) = OK text
    /\ update_bits raw row
       = (OK tt, mkRow (with_fields ext (fields_of (fp_fmt ext) p))
                       (map (fun c => [c]) p) text).
Proof.
  intros Hl Hlab t ext Hwf Hlen. fold ext in Hl, Hlab.
  pose proof Hl as (He & He' & Hm & Hm').
  pose proof (layout_width_pos _ Hl) as Hw.
  assert (classified : forall p : str,
            bin_str_check p = true -> len p = width (fp_fmt ext) ->
            exists text : str,
              get_fp_expression (with_fields ext (fields_of (fp_fmt ext) p))
              = OK text).
  { intros p Hp Hpl.
    apply (get_fp_expression_total _
             (fp_exponent (fields_of (fp_fmt ext) p))
             (fp_mantissa (fields_of (fp_fmt ext) p)));
      try reflexivity; try (now apply field_check);
      apply len_pos_nonempty; unfold fields_of;
      cbn [fp_exponent fp_mantissa]; rewrite field_length;
      unfold field_width; lia || assumption. }
  assert (Hlow : lower t = t) by apply lower_idem.
  unfold well_formed_input in Hwf. rewrite Hlow in Hwf.
  unfold update_bits. fold t.
  destruct (Z.ltb_spec 2 (len t)) as [_|]; [|lia]. rewrite andb_true_l.
  unfold extract_fp_str. rewrite Hlow.
  destruct (startswith t (lit "0x")) eqn:Sx.
  - rewrite orb_true_l.
    destruct (startswith_two _ _ _ Sx) as [h Et]. rewrite Et in *.
    rewrite slice_from_2 in *.
    destruct h as [|c h]; [discriminate|].
    destruct (py_int_hex (c :: h)) as (v & Hv & Hpos);
      [discriminate|assumption|].
    set (p := to_bits (Z.to_nat (width (fp_fmt ext))) v).
    assert (Hp : bin_str_check p = true) by apply to_bits_check.
    assert (Hpl : len p = width (fp_fmt ext))
      by (unfold p; rewrite to_bits_len; lia).
    destruct (classified p Hp Hpl) as [text Ht].
    exists p, text.
    assert (E : extract_hex (c :: h) ext
                = (OK tt, with_fields ext (fields_of (fp_fmt ext) p))).
    { apply extract_hex_ok. now apply (hex_extractor_fields _ _ v). }
    split; [exact Hp|]. split; [exact Hpl|]. split; [exact E|].
    split; [exact Ht|].
    unfold bind, try_except_ValueError, on_extractor, set_result_label,
      modify, ret, gets, lift.
    fold ext. rewrite E. unfold OK. cbv beta iota.
    cbn [extractor fp_fmt with_fields].
    rewrite (hex_str_to_bin_bits (c :: h) (width (fp_fmt ext)) v)
      by (assumption || lia).
    fold p. unfold OK. cbv beta iota.
    rewrite update_bit_labels_all
      by (cbn [bit_labels]; unfold len in Hpl; lia).
    unfold OK. cbv beta iota. cbn [extractor bit_labels result_label].
    rewrite Ht. reflexivity.
  - rewrite orb_false_l.
    destruct (startswith t (lit "0b")) eqn:Sb; [|discriminate].
    destruct (startswith_two _ _ _ Sb) as [d Et]. rewrite Et in *.
    rewrite slice_from_2 in *.
    set (p := clip d (width (fp_fmt ext))).
    assert (Hp : bin_str_check p = true)
      by (apply clip_check; [lia|assumption]).
    assert (Hpl : len p = width (fp_fmt ext))
      by (apply clip_length; [lia|assumption]).
    destruct (classified p Hp Hpl) as [text Ht].
    exists p, text.
    assert (E : extract_bin d ext
                = (OK tt, with_fields ext (fields_of (fp_fmt ext) p))).
    { apply extract_bin_ok. now apply bin_extractor_fields. }
    split; [exact Hp|]. split; [exact Hpl|]. split; [exact E|].
    split; [exact Ht|].
    unfold bind, try_except_ValueError, on_extractor, set_result_label,
      modify, ret, gets, lift.
    fold ext. rewrite E. unfold OK. cbv beta iota.
    cbn [extractor fp_fmt with_fields].
    fold (clip d (width (fp_fmt ext))). fold p.
    rewrite update_bit_labels_all
      by (cbn [bit_labels]; unfold len in Hpl; lia).
    unfold OK. cbv beta iota. cbn [extractor bit_labels result_label].
    rewrite Ht. reflexivity.
Qed.

Lemma row_ok_init (name : str) (fmt : FPFormat) : row_ok fmt (Row_init name fmt).
Proof. split; [reflexivity|]. simpl. apply repeat_length. Qed.

Lemma update_bits_step (fmt : FPFormat) (raw : str) (row : Row) :
  layout_ok fmt -> row_ok fmt row ->
  exists row' : Row, update_bits raw row = (OK tt, row') /\ row_ok fmt row'.
Proof.
  intros Hl [Hf Hlab]. subst fmt.
  destruct (well_formed_input (lower (remove_char "_" (strip raw)))
            && (2 <? len (lower (remove_char "_" (strip raw))))) eqn:G.
  - apply andb_true_iff in G. destruct G as [Hwf Hlen].
    apply Z.ltb_lt in Hlen.
    destruct (update_bits_accepted raw row Hl Hlab Hwf Hlen)
      as (p & text & Hp & Hpl & _ & _ & E).
    eexists. split; [exact E|]. split; [reflexivity|].
    cbn [bit_labels]. rewrite length_map. unfold len in Hpl. lia.
  - destruct (update_bits_rejected raw row G) as [msg E].
    eexists. split; [exact E|]. split; [reflexivity|exact Hlab].
Qed.

(** The handler lets no exception out: in a row of a layout whose slices
    stay inside the pattern, whatever texts the entry takes one after the
    other, each call returns, and the row keeps its layout and its number
    of labels.  This holds from the row that the window builds for a
    format. *)
Theorem update_all_never_raises
    (name : str) (fmt : FPFormat) (inputs : list str) (row : Row) :
  layout_ok fmt ->
  (row_ok fmt row ->
   fst (update_all inputs row) = OK tt
   /\ row_ok fmt (snd (update_all inputs row)))
  /\ fst (update_all inputs (Row_init name fmt)) = OK tt.
Proof.
  intros Hl.
  assert (general : forall r : Row, row_ok fmt r ->
            fst (update_all inputs r) = OK tt
            /\ row_ok fmt (snd (update_all inputs r))).
  { induction inputs as [|raw inputs IH]; intros r Hr.
    - split; [reflexivity|exact Hr].
    - destruct (update_bits_step fmt raw r Hl Hr) as (r' & E & Hr').
      cbn [update_all]. unfold bind. rewrite E. unfold OK. cbv beta iota.
      now apply IH. }
  split; [apply general|].
  apply general, row_ok_init.
Qed.

Lemma update_all_never_raises_witness :
  fst (update_all [lit "0x7"; lit "0x7g"; lit "0b"; lit "zz"; lit "0B1_1"]
         (Row_init (lit "FP8_E4M3") FP8_E4M3)) = OK tt.
Proof.
  assert (H : layout_ok FP8_E4M3) by (unfold layout_ok; simpl; lia).
  exact (proj2 (update_all_never_raises (lit "FP8_E4M3") FP8_E4M3
                  [lit "0x7"; lit "0x7g"; lit "0b"; lit "zz"; lit "0B1_1"]
                  (Row_init (lit "FP8_E4M3") FP8_E4M3) H)).
Defined.




(** A text that is not a well-formed input of more than two characters
    changes nothing but the result label, in every row: the extractor
    keeps the fields of the last accepted input and the bit labels keep
    showing them.  When the text is too short or lacks the prefix, the
    label asks for the prefix; so it does for the prefix alone. *)
Theorem update_bits_rejected_keeps_fields (raw : str) (row : Row) :
  let t := lower (remove_char "_" (strip raw)) in
  let row' := snd (update_bits raw row) in
  well_formed_input t && (2 <? len t) = false ->
  fst (update_bits raw row) = OK tt
  /\ extractor row' = extractor row
  /\ bit_labels row' = bit_labels row
  /\ ((2 <? len t)
      && (startswith t (lit "0x") || startswith t (lit "0b")) = false ->
      result_label row' = lit "Please start with [0x] or [0b]").
Proof.
  intros t row' Hbad.
  destruct (update_bits_rejected raw row Hbad) as [msg E].
  unfold row'.
  split; [now rewrite E|]. split; [now rewrite E|]. split; [now rewrite E|].
  intros G. unfold update_bits. fold t. rewrite G. reflexivity.
Qed.

Lemma update_bits_rejected_keeps_fields_witness :
  extractor (snd (update_bits (lit "0x")
                    (snd (update_bits (lit "0x7E")
                            (Row_init (lit "FP8_E4M3") FP8_E4M3)))))
  = extractor (snd (update_bits (lit "0x7E")
                      (Row_init (lit "FP8_E4M3") FP8_E4M3))).
Proof.
  assert (H : well_formed_input (lower (remove_char "_" (strip (lit "0x"))))
              && (2 <? len (lower (remove_char "_" (strip (lit "0x")))))
              = false) by reflexivity.
  exact (proj1 (proj2 (update_bits_rejected_keeps_fields (lit "0x")
                         (snd (update_bits (lit "0x7E")
                                 (Row_init (lit "FP8_E4M3") FP8_E4M3)))
                         H))).
Defined.

(** ** The formatter *)

Lemma slice_four (s : str) (i : Z) :
  0 <= i -> slice s i (i + 4) = firstn 4 (skipn (Z.to_nat i) s).
Proof.
  intros Hi. unfold slice, adjust_fwd.
  destruct (Z.ltb_spec i 0); [lia|].
  destruct (Z.ltb_spec (i + 4) 0); [lia|].
  pose proof (len_nonneg s) as Hn.
  destruct (Z.le_gt_cases (len s) i) as [Hout|Hin].
  - rewrite !Z.min_r by lia. rewrite Z.sub_diag. simpl.
    rewrite (skipn_all2 (n := Z.to_nat i)) by (unfold len in Hout; lia).
    reflexivity.
  - rewrite (Z.min_l i) by lia.
    destruct (Z.le_gt_cases (i + 4) (len s)) as [Hfull|Hshort].
    + rewrite Z.min_l by lia. f_equal. lia.
    + rewrite Z.min_r by lia.
      rewrite !firstn_all2; try reflexivity;
        rewrite length_skipn; unfold len in *; lia.
Qed.

Lemma concat_chunks (s : str) (k : nat) :
  List.concat (map (fun j => firstn 4 (skipn (4 * j) s)) (seq 0 k))
  = firstn (4 * k) s.
Proof.
  induction k as [|k IH]; [reflexivity|].
  rewrite seq_S, map_app, concat_app, IH. cbn [map List.concat Nat.add].
  rewrite app_nil_r, firstn_plus. f_equal. lia.
Qed.

Lemma remove_char_id (c : ascii) (s : str) :
  ~ In c s -> remove_char c s = s.
Proof.
  unfold remove_char. induction s as [|a s IH]; intros H; [reflexivity|].
  simpl. destruct (Ascii.eqb_spec a c) as [->|_].
  - exfalso. apply H. now left.
  - simpl. f_equal. apply IH. intros Hin. apply H. now right.
Qed.

Lemma remove_char_app (c : ascii) (a b : str) :
  remove_char c (a ++ b) = remove_char c a ++ remove_char c b.
Proof. apply filter_app. Qed.

Lemma remove_join (parts : list str) :
  (forall p : str, In p parts -> ~ In "_"%char p) ->
  remove_char "_" (join (lit "_") parts) = List.concat parts.
Proof.
  induction parts as [|p rest IH]; intros H; [reflexivity|].
  cbn [join]. destruct rest as [|q rest].
  - simpl. rewrite app_nil_r. apply remove_char_id, H. now left.
  - rewrite !remove_char_app, IH by (intros x Hx; apply H; now right).
    rewrite remove_char_id by (apply H; now left). reflexivity.
Qed.

Lemma in_join (c : ascii) (sep : str) (parts : list str) :
  In c (join sep parts) ->
  In c sep \/ exists p : str, In p parts /\ In c p.
Proof.
  induction parts as [|p rest IH]; [intros []|].
  cbn [join]. destruct rest as [|q rest].
  - intros H. right. exists p. split; [now left|exact H].
  - intros H. apply in_app_or in H. destruct H as [H|H].
    + right. exists p. split; [now left|exact H].
    + apply in_app_or in H. destruct H as [H|H]; [now left|].
      destruct (IH H) as [Hs|(x & Hx & Hc)]; [now left|].
      right. exists x. split; [now right|exact Hc].
Qed.

Lemma in_chunk (c : ascii) (k j : nat) (s : str) :
  In c (firstn k (skipn j s)) -> In c s.
Proof.
  intros H. rewrite <- (firstn_skipn j s). apply in_or_app. right.
  rewrite <- (firstn_skipn k (skipn j s)). apply in_or_app. now left.
Qed.

Lemma formatter_parts (s : str) :
  map (fun i => slice s i (i + 4)) (range_step 0 (len s) 4)
  = map (fun j => firstn 4 (skipn (4 * j) s))
        (seq 0 (Z.to_nat ((len s + 3) / 4))).
Proof.
  unfold range_step. rewrite map_map.
  replace (len s - 0 + 4 - 1) with (len s + 3) by lia.
  apply map_ext. intros j.
  rewrite slice_four by lia. do 2 f_equal. lia.
Qed.

Lemma in_formatter (c : ascii) (s : str) :
  In c (bin_formatter s) -> c = "_"%char \/ In c s.
Proof.
  unfold bin_formatter. rewrite formatter_parts. intros H.
  apply in_join in H. destruct H as [H|(p & Hp & Hc)].
  - left. simpl in H. destruct H as [H|[]]. now symmetry.
  - right. apply in_map_iff in Hp. destruct Hp as (j & <- & _).
    eapply in_chunk. exact Hc.
Qed.

Lemma update_bits_same_text (a b : str) (row : Row) :
  lower (remove_char "_" (strip a)) = lower (remove_char "_" (strip b)) ->
  update_bits a row = update_bits b row.
Proof. intros H. unfold update_bits. now rewrite H. Qed.

(** The formatter only inserts underscores: taking them out of its result
    gives the string back, for every string without underscores, the empty
    one included.  So the handler does with a binary literal written by
    the formatter what it does with the plain literal. *)
Theorem bin_formatter_round_trip (s : str) (row : Row) :
  ~ In "_"%char s ->
  remove_char "_" (bin_formatter s) = s
  /\ (forallb (fun c => negb (isspace c)) s = true ->
      update_bits (lit "0b" ++ bin_formatter s) row
      = update_bits (lit "0b" ++ s) row).
Proof.
  intros Hs.
  assert (R : remove_char "_" (bin_formatter s) = s).
  { unfold bin_formatter. rewrite formatter_parts, remove_join.
    - rewrite concat_chunks. apply firstn_all2.
      pose proof (len_nonneg s) as Hn. unfold len in *.
      assert (Z.of_nat (List.length s) + 3
              < 4 * ((Z.of_nat (List.length s) + 3) / 4) + 4).
      { pose proof (Z.div_mod (Z.of_nat (List.length s) + 3) 4).
        pose proof (Z.mod_pos_bound (Z.of_nat (List.length s) + 3) 4).
        lia. }
      assert (0 <= (Z.of_nat (List.length s) + 3) / 4)
        by (apply Z.div_pos; lia).
      lia.
    - intros p Hp Hc. apply in_map_iff in Hp. destruct Hp as (j & <- & _).
      apply Hs. eapply in_chunk. exact Hc. }
  split; [exact R|].
  intros Hsp. apply update_bits_same_text.
  assert (Hf : forallb (fun c => negb (isspace c)) (bin_formatter s) = true).
  { apply forallb_forall. intros c Hc.
    destruct (in_formatter c s Hc) as [-> | Hin]; [reflexivity|].
    rewrite forallb_forall in Hsp. now apply Hsp. }
  rewrite !strip_id.
  - rewrite !remove_char_app, R, (remove_char_id _ s Hs). reflexivity.
  - change (forallb (fun c => negb (isspace c)) (lit "0b" ++ s) = true).
    now rewrite forallb_app, Hsp.
  - change (forallb (fun c => negb (isspace c))
              (lit "0b" ++ bin_formatter s) = true).
    now rewrite forallb_app, Hf.
Qed.

Lemma bin_formatter_round_trip_witness :
  remove_char "_" (bin_formatter (lit "110101011")) = lit "110101011".
Proof.
  assert (H : ~ In "_"%char (lit "110101011")).
  { intros H. simpl in H.
    repeat (destruct H as [H|H]; [discriminate H|]). exact H. }
  exact (proj1 (bin_formatter_round_trip (lit "110101011")
                  (Row_init (lit "FP16") FP16) H)).
Defined.

(** ** The grammar of the inputs *)

Lemma forallb_lower (f : ascii -> bool) (s : str) :
  forallb f (lower s) = forallb (fun c => f (lower_char c)) s.
Proof.
  unfold lower. induction s as [|c s IH]; [reflexivity|].
  simpl. now rewrite IH.
Qed.

Lemma forallb_pointwise (f g : ascii -> bool) (s : str) :
  (forall c : ascii, f c = g c) -> forallb f s = forallb g s.
Proof.
  intros H. induction s as [|c s IH]; [reflexivity|].
  simpl. now rewrite H, IH.
Qed.

Lemma hex_digit_lower (c : ascii) :
  ascii_in (lower_char c) (lit "0123456789abcdef") = is_hex_digit c.
Proof.
  destruct c as [b0 b1 b2 b3 b4 b5 b6 b7].
  destruct b0, b1, b2, b3, b4, b5, b6, b7; vm_compute; reflexivity.
Qed.

Lemma bin_digit_lower (c : ascii) :
  ascii_in (lower_char c) (lit "01") = is_bin_digit c.
Proof.
  destruct c as [b0 b1 b2 b3 b4 b5 b6 b7].
  destruct b0, b1, b2, b3, b4, b5, b6, b7; vm_compute; reflexivity.
Qed.

Lemma hex_str_check_lower (s : str) :
  hex_str_check (lower s) = forallb is_hex_digit s.
Proof.
  unfold hex_str_check. rewrite lower_idem, forallb_lower.
  apply forallb_pointwise. intros c. apply hex_digit_lower.
Qed.

Lemma bin_str_check_lower (s : str) :
  bin_str_check (lower s) = forallb is_bin_digit s.
Proof.
  unfold bin_str_check. rewrite forallb_lower.
  apply forallb_pointwise. intros c. apply bin_digit_lower.
Qed.

Lemma lower_char_is (c : ascii) (l u : ascii) :
  lower_char l = l -> lower_char u = l ->
  (forall x : ascii, lower_char x = l -> x = l \/ x = u) ->
  Ascii.eqb l (lower_char c) = Ascii.eqb c l || Ascii.eqb c u.
Proof.
  intros Hl Hu Hinv.
  destruct (Ascii.eqb_spec c l) as [->|Nl].
  - rewrite Hl. apply Ascii.eqb_refl.
  - destruct (Ascii.eqb_spec c u) as [->|Nu].
    + rewrite Hu. apply Ascii.eqb_refl.
    + apply Ascii.eqb_neq. intros E. symmetry in E.
      destruct (Hinv c E); contradiction.
Qed.

Lemma lower_char_inv (x l : ascii) :
  lower_char x = l ->
  x = l \/ N_of_ascii x = (N_of_ascii l - 32)%N.
Proof.
  intros <-.
  destruct x as [b0 b1 b2 b3 b4 b5 b6 b7].
  destruct b0, b1, b2, b3, b4, b5, b6, b7;
    first [left; reflexivity|right; vm_compute; reflexivity].
Qed.

Lemma of_code (x : ascii) (n : N) : N_of_ascii x = n -> x = ascii_of_N n.
Proof. intros <-. symmetry. apply ascii_N_embedding. Qed.

Lemma lower_zero (c : ascii) :
  Ascii.eqb "0" (lower_char c) = Ascii.eqb c "0".
Proof.
  rewrite (lower_char_is c "0" "0"); try reflexivity.
  - apply orb_diag.
  - intros x Hx. destruct (lower_char_inv x _ Hx) as [H|H]; [now left|].
    apply of_code in H. subst x. vm_compute in Hx. discriminate Hx.
Qed.

Lemma lower_x (c : ascii) :
  Ascii.eqb "x" (lower_char c) = Ascii.eqb c "x" || Ascii.eqb c "X".
Proof.
  apply lower_char_is; try reflexivity.
  intros x Hx. destruct (lower_char_inv x _ Hx) as [H|H]; [now left|].
  right. now apply of_code in H.
Qed.

Lemma lower_b (c : ascii) :
  Ascii.eqb "b" (lower_char c) = Ascii.eqb c "b" || Ascii.eqb c "B".
Proof.
  apply lower_char_is; try reflexivity.
  intros x Hx. destruct (lower_char_inv x _ Hx) as [H|H]; [now left|].
  right. now apply of_code in H.
Qed.

Ltac closed_eqb :=
  repeat match goal with
         | |- context [Ascii.eqb ?a ?b] =>
             let v := eval vm_compute in (Ascii.eqb a b) in
             change (Ascii.eqb a b) with v
         end.

(** The inputs that pass the checks of the code are those of the grammar. *)
Lemma well_formed_in_grammar (s : str) : well_formed_input s = in_grammar s.
Proof.
  destruct s as [|z [|p r]]; [reflexivity| |].
  - unfold well_formed_input.
    change (lower [z]) with [lower_char z].
    change (startswith [lower_char z] (lit "0x"))
      with (Ascii.eqb "0" (lower_char z) && false).
    change (startswith [lower_char z] (lit "0b"))
      with (Ascii.eqb "0" (lower_char z) && false).
    rewrite andb_false_r. reflexivity.
  - unfold well_formed_input, in_grammar.
    change (lower (z :: p :: r)) with (lower_char z :: lower_char p :: lower r).
    rewrite !slice_from_2.
    change (startswith (lower_char z :: lower_char p :: lower r) (lit "0x"))
      with (Ascii.eqb "0" (lower_char z)
            && (Ascii.eqb "x" (lower_char p) && true)).
    change (startswith (lower_char z :: lower_char p :: lower r) (lit "0b"))
      with (Ascii.eqb "0" (lower_char z)
            && (Ascii.eqb "b" (lower_char p) && true)).
    rewrite !andb_true_r, lower_zero, lower_x, lower_b.
    rewrite <- hex_str_check_lower, bin_str_check_lower.
    destruct (Ascii.eqb z "0"); [|reflexivity]. rewrite !andb_true_l.
    destruct (Ascii.eqb_spec p "x") as [->|Nx];
      [destruct r as [|c r]; [reflexivity|]; closed_eqb; cbn [orb andb];
       now rewrite orb_false_r|].
    destruct (Ascii.eqb_spec p "X") as [->|NX];
      [destruct r as [|c r]; [reflexivity|]; closed_eqb; cbn [orb andb];
       now rewrite orb_false_r|].
    simpl orb at 1. cbv iota. rewrite !andb_false_l, orb_false_l.
    destruct (Ascii.eqb p "b" || Ascii.eqb p "B"); reflexivity.
Qed.

(** In every format of the table, the extraction returns on exactly the
    inputs of the grammar: [0x] or [0X] followed by one hexadecimal digit
    or more, or [0b] or [0B] followed by binary digits.  On every other
    input it raises [ValueError] and changes nothing; no other exception
    leaves it. *)
Theorem extract_fp_str_accepts
    (name : str) (fmt : FPFormat) (s : str) (st : FPExtractor) :
  In (name, fmt) FP_CONFIG -> fp_fmt st = fmt ->
  (in_grammar s = true ->
     exists fp : Fp, extract_fp_str s st = (OK tt, with_fields st fp))
  /\ (in_grammar s = false ->
        exists msg : str, extract_fp_str s st = (Raise (ValueError msg), st)).
Proof.
  intros Hin Hf. subst fmt.
  pose proof (catalog_layout_ok _ _ Hin) as Hl.
  rewrite <- well_formed_in_grammar.
  split; [now apply extract_fp_str_well_formed|apply extract_fp_str_rejects].
Qed.

Lemma extract_fp_str_accepts_witness :
  exists fp : Fp,
    extract_fp_str (lit "0X7e") (FPExtractor_init (lit "BF16") BF16)
    = (OK tt, with_fields (FPExtractor_init (lit "BF16") BF16) fp).
Proof.
  assert (Hin : In (lit "BF16", BF16) FP_CONFIG) by (simpl; tauto).
  apply (proj1 (extract_fp_str_accepts (lit "BF16") BF16 (lit "0X7e")
                  (FPExtractor_init (lit "BF16") BF16) Hin eq_refl)).
  reflexivity.
Defined.
